(** * The scanner-demo service: [src/agent/app.py] and [src/agent/test_code.py]

    A shallow embedding of the four Flask view functions, of the store
    bootstrap that precedes [app.run], and of the standalone script.

    The program is a thin layer over programs it does not contain: the SQL
    engine behind [sqlite3], the shell behind [subprocess.Popen], the YAML
    loader and the diagnostics of the Python runtime.  They are the fields of
    a [Platform] record over which every definition of the program is
    parametric; what the program itself does (argument defaults, string
    interpolation, decoding, status codes, [try]/[finally], [try]/[except])
    is translated statement by statement.  [Ref] gives one executable
    platform, used to run the program on concrete requests. *)

From Stdlib Require Import ZArith Strings.Byte Ascii String List Lia.
From stdpp Require Import base option list gmap strings pretty.

#[local] Open Scope string_scope.
#[local] Open Scope Z_scope.
#[local] Set Warnings "-register-all".

(** ** Python values and faults *)

Inductive exn_class :=
| IndexError | TypeError | ValueError | AttributeError | UnicodeDecodeError
| FileNotFoundError | PermissionError | IsADirectoryError
| OperationalError | ProgrammingError | DatabaseError
| YAMLError | BadRequest | UnsupportedMediaType | NotImplementedError.

(** An exception instance: its class and the text [str(e)] gives. *)
Record exn := Exn { exn_kind : exn_class; exn_str : string }.

Inductive result (A : Type) :=
| Ok (a : A)
| Raise (e : exn).
Arguments Ok {A} a.
Arguments Raise {A} e.

(** Python objects as far as the program can meet them, as finite trees (a
    container that holds itself is outside).  A float is carried
    as the text [repr] prints for it; [PConv] is an object of a type that
    Flask's JSON provider converts before encoding (date, Decimal, UUID,
    dataclass), with the value it converts to; [PObject] is any other
    object, known by its type name only. *)
Inductive pyobj :=
| PNone
| PBool (b : bool)
| PInt (n : Z)
| PFloat (repr : string)
| PStr (s : string)
| PBytes (b : list byte)
| PList (l : list pyobj)
| PTuple (l : list pyobj)
| PDict (items : list (pyobj * pyobj))
| PSet (l : list pyobj)
| PConv (tyname : string) (v : pyobj)
| PObject (tyname : string).

Definition py_typename (o : pyobj) : string :=
  match o with
  | PNone => "NoneType" | PBool _ => "bool" | PInt _ => "int"
  | PFloat _ => "float" | PStr _ => "str" | PBytes _ => "bytes"
  | PList _ => "list" | PTuple _ => "tuple" | PDict _ => "dict"
  | PSet _ => "set" | PConv t _ => t | PObject t => t
  end.

(** [d.get(key, default)] on the items of a dict with string keys. *)
Fixpoint items_get (items : list (pyobj * pyobj)) (key : string) (default : pyobj) : pyobj :=
  match items with
  | [] => default
  | (PStr k, v) :: rest => if String.eqb k key then v else items_get rest key default
  | _ :: rest => items_get rest key default
  end.

(** ** Text and bytes

    A [str] is represented by its UTF-8 encoding, so [bytes.decode("utf-8")]
    is a check of well-formedness (Unicode table 3-7, as the strict codec
    applies it) that returns the bytes it was given, and encoding a response
    body gives the bytes back. *)

Definition in_range (lo hi : N) (b : byte) : bool :=
  (N.leb lo (Byte.to_N b) && N.leb (Byte.to_N b) hi)%bool.

(** [need] continuation bytes are still owed; the next one lies in [lo..hi]. *)
Fixpoint utf8_scan (need : nat) (lo hi : N) (bs : list byte) : bool :=
  match bs with
  | [] => match need with O => true | S _ => false end
  | b :: rest =>
      match need with
      | S k => if in_range lo hi b then utf8_scan k 128 191 rest else false
      | O =>
          if in_range 0 127 b then utf8_scan 0 128 191 rest
          else if in_range 194 223 b then utf8_scan 1 128 191 rest
          else if in_range 224 224 b then utf8_scan 2 160 191 rest
          else if in_range 237 237 b then utf8_scan 2 128 159 rest
          else if in_range 225 239 b then utf8_scan 2 128 191 rest
          else if in_range 240 240 b then utf8_scan 3 144 191 rest
          else if in_range 241 243 b then utf8_scan 3 128 191 rest
          else if in_range 244 244 b then utf8_scan 3 128 143 rest
          else false
      end
  end.

Definition utf8_valid (bs : list byte) : bool := utf8_scan 0 128 191 bs.

(** The bytes a [str] is sent as. *)
Definition encode_utf8 (s : string) : list byte := list_byte_of_string s.

Fixpoint has_char (c : ascii) (s : string) : bool :=
  match s with
  | EmptyString => false
  | String d rest => (Ascii.eqb c d || has_char c rest)%bool
  end.

Definition NUL : ascii := ascii_of_nat 0.
Definition LF : ascii := ascii_of_nat 10.
Definition CR : ascii := ascii_of_nat 13.
Definition QUOTE : ascii := ascii_of_nat 39.

(** Text mode with the default [newline=None]: a carriage return, alone or
    before a line feed, is read as one line feed. *)
Fixpoint universal_newlines (s : string) : string :=
  match s with
  | EmptyString => EmptyString
  | String c rest =>
      if Ascii.eqb c CR then
        match rest with
        | String d rest' =>
            if Ascii.eqb d LF then String LF (universal_newlines rest')
            else String LF (universal_newlines rest)
        | EmptyString => String LF EmptyString
        end
      else String c (universal_newlines rest)
  end.

(** ** JSON documents *)

Inductive json :=
| JNull
| JBool (b : bool)
| JInt (n : Z)
| JFloat (repr : string)
| JStr (s : string)
| JArr (l : list json)
| JObj (members : list (string * json)).

(** The encoder sorts the items of a dict by key before it writes them
    ([sort_keys], Flask's default).  The order of the members is not part of
    a [json] value, but the sort compares the keys, and keys that cannot be
    compared make the encoder fault. *)
Definition key_is_str (k : pyobj) : bool :=
  match k with PStr _ => true | _ => false end.
Definition key_is_num (k : pyobj) : bool :=
  match k with PInt _ | PBool _ | PFloat _ => true | _ => false end.
Definition keys_sortable (ks : list pyobj) : bool :=
  match ks with
  | [] | [_] => true
  | _ => (forallb key_is_str ks || forallb key_is_num ks)%bool
  end.

Definition key_to_string (k : pyobj) : option string :=
  match k with
  | PStr s => Some s
  | PInt n => Some (pretty n)
  | PBool true => Some "true"
  | PBool false => Some "false"
  | PFloat r => Some r
  | PNone => Some "null"
  | _ => None
  end.

(** [json.dumps] with Flask's [default] hook; [None] where it raises. *)
Fixpoint to_json (o : pyobj) : option json :=
  match o with
  | PNone => Some JNull
  | PBool b => Some (JBool b)
  | PInt n => Some (JInt n)
  | PFloat r => Some (JFloat r)
  | PStr s => Some (JStr s)
  | PList l | PTuple l => JArr <$> mapM to_json l
  | PDict items =>
      if keys_sortable (map fst items) then
        JObj <$> mapM (λ kv, k ← key_to_string (fst kv); v ← to_json (snd kv); Some (k, v)) items
      else None
  | PConv _ v => to_json v
  | PBytes _ | PSet _ | PObject _ => None
  end.

(** ** The store *)

Inductive sqlval :=
| VNull
| VInt (n : Z)
| VReal (repr : string)
| VText (s : string)
| VBlob (b : list byte).

#[global] Instance byte_eq_dec : EqDecision byte := Byte.byte_eq_dec.
#[global] Instance sqlval_eq_dec : EqDecision sqlval.
Proof. solve_decision. Defined.

(** A table: the names of its columns and its rows, oldest first.  The
    tables of this program have TEXT columns only, so a table does not
    record the types of its columns. *)
Record Table := mkTable { t_cols : list string; t_rows : list (list sqlval) }.

(** A database: its tables by name. *)
Abbreviation Database := (gmap string Table).

(** A connection of the driver: open on a path, with the working copy of
    its transaction when one is open, or closed. *)
Inductive conn_state :=
| COpen (path : string) (txn : option Database)
| CClosed.

Inductive fnode :=
| FRegular (data : list byte)
| FDirectory
| FDenied.

(** ** The world the program runs in

    [dbs]: the database files by path (a path without entry is not a
    database file); [files]: the other paths; [conns]: the connections the
    driver has handed out, by handle; [stdout]: what [print] has written;
    [executed]: the statements handed to [execute], oldest first. *)
Record World := mkWorld {
  dbs : gmap string Database;
  conns : list conn_state;
  files : gmap string fnode;
  stdout : list string;
  executed : list string
}.

Definition set_dbs (d : gmap string Database) (w : World) : World :=
  mkWorld d (conns w) (files w) (stdout w) (executed w).
Definition set_conns (c : list conn_state) (w : World) : World :=
  mkWorld (dbs w) c (files w) (stdout w) (executed w).
Definition set_stdout (o : list string) (w : World) : World :=
  mkWorld (dbs w) (conns w) (files w) o (executed w).
Definition set_executed (l : list string) (w : World) : World :=
  mkWorld (dbs w) (conns w) (files w) (stdout w) l.

(** What [proc.communicate()] and [proc.returncode] give. *)
Record completed := mkCompleted {
  returncode : Z;
  proc_stdout : list byte;
  proc_stderr : list byte
}.

(** The programs and runtime services the repository calls and does not
    contain.
    - [sql_run q db]: the SQL engine on one call of [execute]: the rows and
      the database after the statement, or the fault (the database is then
      as before: a failed statement is rolled back);
    - [popen cmd w]: [Popen(cmd, shell=True, ...)] followed by
      [communicate()]: the fault of spawning, or the completed process, and
      the world the command leaves;
    - [yaml_load doc w]: [yaml.load(doc, Loader=yaml.Loader)], which may
      construct any object and so may change the world;
    - [py_repr]: the builtin [repr];
    - [obj_str o]: [str(o)] for an object that is not a scalar;
    - [codec_diag bs]: the text of the [UnicodeDecodeError] for [bs];
    - [encode_diag o]: the text of the [TypeError] of the JSON encoder;
    - [db_image db]: the bytes of a database file. *)
Record Platform := mkPlatform {
  sql_run : string → Database → result (list (list sqlval) * Database);
  popen : pyobj → World → result completed * World;
  yaml_load : string → World → result pyobj * World;
  py_repr : pyobj → string;
  obj_str : pyobj → string;
  codec_diag : list byte → string;
  encode_diag : pyobj → string;
  db_image : Database → list byte
}.

(** ** Computations: world passing with faults *)

Definition M (A : Type) : Type := World → result A * World.

#[global] Instance M_ret : MRet M := λ A a w, (Ok a, w).
#[global] Instance M_bind : MBind M := λ A B f m w,
  match m w with
  | (Ok a, w1) => f a w1
  | (Raise e, w1) => (Raise e, w1)
  end.

Definition raise {A} (e : exn) : M A := λ w, (Raise e, w).

Definition lift {A} (r : result A) : M A := λ w, (r, w).

(** [try: body finally: fin]: [fin] runs on every exit of [body]; a fault of
    [fin] replaces the outcome of [body]. *)
Definition try_finally {A} (body : M A) (fin : M unit) : M A := λ w,
  let '(r, w1) := body w in
  match fin w1 with
  | (Ok _, w2) => (r, w2)
  | (Raise e, w2) => (Raise e, w2)
  end.

(** [try: body except Exception as e: handler e]. *)
Definition try_except {A} (body : M A) (handler : exn → M A) : M A := λ w,
  match body w with
  | (Ok a, w1) => (Ok a, w1)
  | (Raise e, w1) => handler e w1
  end.

#[global] Instance result_ret : MRet result := λ A a, Ok a.
#[global] Instance result_bind : MBind result := λ A B f r,
  match r with
  | Ok a => f a
  | Raise e => Raise e
  end.

(** ** Flask's side of a request *)

(** [args]: the query parameters in the order of the URL; [json_body]: what
    the access [request.json] gives (a fault when the body is not a JSON
    document of a JSON media type); [data]: the raw body. *)
Record Request := mkRequest {
  args : list (string * string);
  json_body : result pyobj;
  data : list byte
}.

Inductive Body :=
| Text (s : string)
| Json (j : json).

Record Response := mkResponse { status : Z; body : Body }.

(** [request.args.get(key, default)]: the first value of [key]. *)
Fixpoint args_get (a : list (string * string)) (key default : string) : string :=
  match a with
  | [] => default
  | (k, v) :: rest => if String.eqb k key then v else args_get rest key default
  end.

(** ** [src/agent/app.py] *)

Module App.

Section WithPlatform.

Context (P : Platform).

(** *** Builtins and library calls the handlers use *)

Definition decode_utf8 (bs : list byte) : result string :=
  if utf8_valid bs then Ok (string_of_list_byte bs)
  else Raise (Exn UnicodeDecodeError (codec_diag P bs)).

Definition os_error (c : exn_class) (errno strerror filename : string) : exn :=
  Exn c ("[Errno " +:+ errno +:+ "] " +:+ strerror +:+ ": " +:+ py_repr P (PStr filename)).

(** [open(filename, "r", encoding="utf-8")]: the bytes [read] will decode. *)
Definition open_bytes (filename : string) (w : World) : result (list byte) :=
  if has_char NUL filename then Raise (Exn ValueError "embedded null byte")
  else
    match dbs w !! filename with
    | Some db => Ok (db_image P db)
    | None =>
        match files w !! filename with
        | Some (FRegular bs) => Ok bs
        | Some FDirectory => Raise (os_error IsADirectoryError "21" "Is a directory" filename)
        | Some FDenied => Raise (os_error PermissionError "13" "Permission denied" filename)
        | None => Raise (os_error FileNotFoundError "2" "No such file or directory" filename)
        end
    end.

(** [with open(...) as f: f.read()]. *)
Definition read_text (filename : string) : M string := λ w,
  (bs ← open_bytes filename w; s ← decode_utf8 bs; Ok (universal_newlines s), w).

(** [Path(p).exists()]. *)
Definition path_exists (p : string) : M bool := λ w,
  (Ok (bool_decide (is_Some (dbs w !! p)) || bool_decide (is_Some (files w !! p))), w).

(** [o.get(key, default)]: only a dict has the method. *)
Definition method_get (o : pyobj) (key : string) (default : pyobj) : M pyobj :=
  match o with
  | PDict items => mret (items_get items key default)
  | _ => raise (Exn AttributeError
                  ("'" +:+ py_typename o +:+ "' object has no attribute 'get'"))
  end.

Definition jsonify (o : pyobj) : M Response :=
  match to_json o with
  | Some j => mret (mkResponse 200 (Json j))
  | None => raise (Exn TypeError (encode_diag P o))
  end.

(** *** The [sqlite3] driver *)

Definition is_space (c : ascii) : bool :=
  Ascii.eqb c " " || Ascii.eqb c (ascii_of_nat 9) || Ascii.eqb c LF || Ascii.eqb c CR.

Fixpoint lstrip (s : string) : string :=
  match s with
  | String c rest => if is_space c then lstrip rest else s
  | EmptyString => s
  end.

Definition to_upper (c : ascii) : ascii :=
  let n := nat_of_ascii c in
  if ((97 <=? n)%nat && (n <=? 122)%nat)%bool then ascii_of_nat (n - 32) else c.

Fixpoint upper (s : string) : string :=
  match s with
  | String c rest => String (to_upper c) (upper rest)
  | EmptyString => EmptyString
  end.

(** The driver opens a transaction before a statement that starts with one
    of these words; every other statement runs in autocommit mode unless a
    transaction is already open. *)
Definition is_dml (q : string) : bool :=
  let u := upper (lstrip q) in
  String.prefix "INSERT" u || String.prefix "UPDATE" u
  || String.prefix "DELETE" u || String.prefix "REPLACE" u.

Definition closed_error : exn :=
  Exn ProgrammingError "Cannot operate on a closed database.".

Definition cannot_open : exn :=
  Exn OperationalError "unable to open database file".

Definition not_a_database : exn :=
  Exn DatabaseError "file is not a database".

(** What opening [path] as a database finds: the stores as they are from
    then on, or the fault.  A store opens; where nothing is at the path the
    file is created, empty; a plain file opens too (whether it is a
    database shows at the first statement); a directory or a file that
    cannot be read does not open. *)
Definition open_store (path : string) (w : World) : result (gmap string Database) :=
  match dbs w !! path with
  | Some _ => Ok (dbs w)
  | None =>
      match files w !! path with
      | None => Ok (<[path := ∅]> (dbs w))
      | Some (FRegular _) => Ok (dbs w)
      | Some FDirectory | Some FDenied => Raise cannot_open
      end
  end.

(** [sqlite3.connect(path)]: the handle is the next free one; nothing is
    acquired when the path does not open. *)
Definition connect (path : string) : M nat := λ w,
  match open_store path w with
  | Ok d =>
      (Ok (length (conns w)), set_conns (conns w ++ [COpen path None]) (set_dbs d w))
  | Raise e => (Raise e, w)
  end.

(** The database a statement of a connection runs on: the working copy of
    its transaction, or the store at its path.  An empty file is an empty
    database; any other plain file is not a database. *)
Definition working_copy (path : string) (txn : option Database) (w : World)
    : result Database :=
  match txn with
  | Some d => Ok d
  | None =>
      match dbs w !! path with
      | Some d => Ok d
      | None =>
          match files w !! path with
          | None | Some (FRegular []) => Ok ∅
          | Some (FRegular (_ :: _)) => Raise not_a_database
          | Some FDirectory | Some FDenied => Raise cannot_open
          end
      end
  end.

(** [conn.execute(q)]: the cursor, as the rows it will give. *)
Definition execute (c : nat) (q : string) : M (list (list sqlval)) := λ w,
  match conns w !! c with
  | Some (COpen path txn) =>
      let w := set_executed (executed w ++ [q]) w in
      match working_copy path txn w with
      | Raise e => (Raise e, w)
      | Ok cur =>
          match sql_run P q cur with
          | Raise e => (Raise e, w)
          | Ok (rows, d') =>
              if bool_decide (is_Some txn) || is_dml q
              then (Ok rows, set_conns (<[c := COpen path (Some d')]> (conns w)) w)
              else (Ok rows, set_dbs (<[path := d']> (dbs w)) w)
          end
      end
  | _ => (Raise closed_error, w)
  end.

Definition value_to_py (v : sqlval) : pyobj :=
  match v with
  | VNull => PNone
  | VInt n => PInt n
  | VReal r => PFloat r
  | VText s => PStr s
  | VBlob b => PBytes b
  end.

(** [cursor.fetchall()]: a list of tuples. *)
Definition fetchall (cursor : list (list sqlval)) : list pyobj :=
  map (λ r, PTuple (map value_to_py r)) cursor.

Definition commit (c : nat) : M unit := λ w,
  match conns w !! c with
  | Some (COpen path (Some d)) =>
      (Ok (), set_conns (<[c := COpen path None]> (conns w))
                (set_dbs (<[path := d]> (dbs w)) w))
  | Some (COpen path None) => (Ok (), w)
  | _ => (Raise closed_error, w)
  end.

(** [conn.close()]: an open transaction is dropped. *)
Definition close (c : nat) : M unit := λ w,
  (Ok (), set_conns (<[c := CClosed]> (conns w)) w).

(** *** The module *)

Definition STRIPE_SECRET_KEY : string := "sk_live_FAKE_HARDCODED_KEY".

Definition DB_PATH : string := "test.db".

Definition get_db : M nat := connect DB_PATH.

Definition user_query (user_id : string) : string :=
  "SELECT id, username FROM users WHERE id = '" +:+ user_id +:+ "'".

Definition get_user (request : Request) : M Response :=
  let user_id := args_get (args request) "id" "" in
  let query := user_query user_id in
  conn ← get_db;
  try_finally
    (cursor ← execute conn query;
     let rows := fetchall cursor in
     jsonify (PDict [(PStr "rows", PList rows)]))
    (close conn).

Definition run (request : Request) : M Response :=
  j ← lift (json_body request);
  cmd ← method_get j "cmd" (PStr "echo Hello");
  proc ← popen P cmd;
  if negb (returncode proc =? 0) then
    err ← lift (decode_utf8 (proc_stderr proc));
    mret (mkResponse 500 (Text err))
  else
    out ← lift (decode_utf8 (proc_stdout proc));
    mret (mkResponse 200 (Text out)).

Definition read_file (request : Request) : M Response :=
  let filename := args_get (args request) "file" "README.md" in
  try_except
    (s ← read_text filename;
     mret (mkResponse 200 (Text s)))
    (λ e, mret (mkResponse 404 (Text (exn_str e)))).

Definition load_config (request : Request) : M Response :=
  body ← lift (decode_utf8 (data request));
  cfg ← yaml_load P body;
  jsonify cfg.

(** The [if __name__ == "__main__"] block up to [app.run]. *)
Definition bootstrap : M unit :=
  present ← path_exists DB_PATH;
  if negb present then
    conn ← connect DB_PATH;
    execute conn "CREATE TABLE users (id TEXT, username TEXT)";;
    execute conn "INSERT INTO users VALUES ('1', 'alice'), ('2', 'bob')";;
    commit conn;;
    close conn
  else mret ().

(** The URL map the decorators build. *)
Inductive route := RUser | RRun | RRead | RConfig.

Definition url_map (method path : string) : option route :=
  if String.eqb method "GET" && String.eqb path "/user" then Some RUser
  else if String.eqb method "POST" && String.eqb path "/run" then Some RRun
  else if String.eqb method "GET" && String.eqb path "/read" then Some RRead
  else if String.eqb method "POST" && String.eqb path "/config" then Some RConfig
  else None.

Definition view (r : route) : Request → M Response :=
  match r with
  | RUser => get_user
  | RRun => run
  | RRead => read_file
  | RConfig => load_config
  end.

End WithPlatform.

End App.

(** ** [src/agent/test_code.py] *)

Module TestCode.

Section WithPlatform.

Context (P : Platform).

(** [l[i]] for an index that is not negative. *)
Definition list_index (l : list pyobj) (i : nat) : M pyobj :=
  match l !! i with
  | Some x => mret x
  | None => raise (Exn IndexError "list index out of range")
  end.

(** [print(s)]: one more line on the standard output. *)
Definition print (s : string) : M unit := λ w,
  (Ok (), set_stdout (stdout w ++ [s]) w).

(** What a replacement field of an f-string puts for [o]. *)
Definition py_str (o : pyobj) : string :=
  match o with
  | PNone => "None"
  | PBool true => "True"
  | PBool false => "False"
  | PInt n => pretty n
  | PFloat r => r
  | PStr s => s
  | _ => obj_str P o
  end.

(** [for x in l: body x]. *)
Fixpoint for_each {A} (l : list A) (body : A → M unit) : M unit :=
  match l with
  | [] => mret ()
  | x :: rest => body x;; for_each rest body
  end.

Definition range (n : nat) : list nat := seq 0 n.

Definition process_data (list_a list_b : list pyobj) : M unit :=
  for_each (range (length list_a)) (λ i,
    item_a ← list_index list_a i;
    item_b ← list_index list_b i;
    print ("Index " +:+ pretty i +:+ ": " +:+ py_str item_a +:+ " - " +:+ py_str item_b)).

Definition API_KEY : string := "12345-ABCDE".

(** The statements of the module, in order. *)
Definition script : M unit :=
  process_data [PInt 1; PInt 2] [PStr "apple"].

End WithPlatform.

End TestCode.

(** ** A reference platform

    One executable platform, for running the program on concrete requests:
    a small SQL engine (CREATE TABLE, INSERT ... VALUES, SELECT ... WHERE
    with equalities joined by AND and OR, over the identifiers of the
    program's schema and text values), a shell that knows a handful of
    commands on words without metacharacters, and a loader that knows a
    handful of documents.  What lies outside is not guessed at: it is
    answered by [NotImplementedError]. *)

Module Ref.

Definition not_implemented {A} (what : string) : result A :=
  Raise (Exn NotImplementedError what).

(** *** SQL: tokens *)

Inductive token :=
| TWord (s : string)
| TStr (s : string)
| TPunct (c : ascii).

Inductive lex_state :=
| LStart
| LWord (acc : string)
| LString (acc : string)
| LQuote (acc : string).

Definition between (lo hi : nat) (c : ascii) : bool :=
  ((lo <=? nat_of_ascii c)%nat && (nat_of_ascii c <=? hi)%nat)%bool.

Definition is_word_char (c : ascii) : bool :=
  between 48 57 c || between 65 90 c || between 97 122 c || Ascii.eqb c "_".

Definition is_punct (c : ascii) : bool :=
  Ascii.eqb c "(" || Ascii.eqb c ")" || Ascii.eqb c "," || Ascii.eqb c "="
  || Ascii.eqb c ";" || Ascii.eqb c "*".

Definition snoc (s : string) (c : ascii) : string := s +:+ String c EmptyString.

(** One pass over the statement.  Inside a literal a quote is either the
    first half of a doubled quote or the end of the literal: [LQuote]. *)
Fixpoint lex (st : lex_state) (s : string) : option (list token) :=
  match s with
  | EmptyString =>
      match st with
      | LStart => Some []
      | LWord a => Some [TWord a]
      | LString _ => None
      | LQuote a => Some [TStr a]
      end
  | String c rest =>
      let start := λ _ : unit,
        if App.is_space c then lex LStart rest
        else if Ascii.eqb c QUOTE then lex (LString EmptyString) rest
        else if is_word_char c then lex (LWord (String c EmptyString)) rest
        else if is_punct c then cons (TPunct c) <$> lex LStart rest
        else None in
      match st with
      | LStart => start ()
      | LWord a =>
          if is_word_char c then lex (LWord (snoc a c)) rest
          else cons (TWord a) <$> start ()
      | LString a =>
          if Ascii.eqb c QUOTE then lex (LQuote a) rest
          else lex (LString (snoc a c)) rest
      | LQuote a =>
          if Ascii.eqb c QUOTE then lex (LString (snoc a c)) rest
          else cons (TStr a) <$> start ()
      end
  end.

(** *** SQL: statements *)

Inductive operand :=
| OCol (c : string)
| OLit (s : string).

(** A condition: a disjunction of conjunctions of equalities. *)
Inductive stmt :=
| SCreate (table : string) (cols : list string)
| SInsert (table : string) (rows : list (list string))
| SSelect (cols : list string) (table : string) (cond : list (list (operand * operand))).

Definition kw (t : token) (word : string) : bool :=
  match t with
  | TWord s => String.eqb (App.upper s) word
  | _ => false
  end.

Definition punct (t : token) (c : ascii) : bool :=
  match t with
  | TPunct d => Ascii.eqb c d
  | _ => false
  end.

Definition end_of_statement (ts : list token) : bool :=
  match ts with
  | [] => true
  | [t] => punct t ";"
  | _ => false
  end.

(** [name type, name type, ... )] *)
Fixpoint parse_coldefs (ts : list token) (acc : list string) : option (list string * list token) :=
  match ts with
  | TWord name :: ty :: sep :: rest =>
      if negb (kw ty "TEXT") then None
      else if punct sep "," then parse_coldefs rest (acc ++ [name])%list
      else if punct sep ")" then Some ((acc ++ [name])%list, rest)
      else None
  | _ => None
  end.

(** ['v', 'v', ... )] *)
Fixpoint parse_values (ts : list token) (acc : list string) : option (list string * list token) :=
  match ts with
  | TStr v :: sep :: rest =>
      if punct sep "," then parse_values rest (acc ++ [v])%list
      else if punct sep ")" then Some ((acc ++ [v])%list, rest)
      else None
  | _ => None
  end.

(** [(values), (values), ...] up to the end of the statement; [fuel] bounds
    the number of tuples. *)
Fixpoint parse_tuples (fuel : nat) (ts : list token) (acc : list (list string)) : option (list (list string)) :=
  match fuel, ts with
  | S fuel', open :: rest =>
      if punct open "(" then
        match parse_values rest [] with
        | Some (vs, sep :: rest') =>
            if punct sep "," then parse_tuples fuel' rest' (acc ++ [vs])%list
            else if end_of_statement (sep :: rest') then Some (acc ++ [vs])%list
            else None
        | Some (vs, []) => Some (acc ++ [vs])%list
        | None => None
        end
      else None
  | _, _ => None
  end.

(** [name, name, ... FROM] *)
Fixpoint parse_colnames (ts : list token) (acc : list string) : option (list string * list token) :=
  match ts with
  | TWord name :: sep :: rest =>
      if punct sep "," then parse_colnames rest (acc ++ [name])%list
      else if kw sep "FROM" then Some ((acc ++ [name])%list, rest)
      else None
  | _ => None
  end.

Definition parse_operand (t : token) : option operand :=
  match t with
  | TWord c => Some (OCol c)
  | TStr s => Some (OLit s)
  | TPunct _ => None
  end.

(** [a = b AND c = d OR e = f ...] up to the end of the statement. *)
Fixpoint parse_cond (ts : list token) (conj : list (operand * operand))
    (disj : list (list (operand * operand))) : option (list (list (operand * operand))) :=
  match ts with
  | l :: eq :: r :: rest =>
      if punct eq "=" then
        match parse_operand l, parse_operand r with
        | Some a, Some b =>
            match rest with
            | next :: rest' =>
                if kw next "AND" then parse_cond rest' (conj ++ [(a, b)])%list disj
                else if kw next "OR" then parse_cond rest' [] (disj ++ [conj ++ [(a, b)]])%list
                else if end_of_statement rest then Some (disj ++ [conj ++ [(a, b)]])%list
                else None
            | [] => Some (disj ++ [conj ++ [(a, b)]])%list
            end
        | _, _ => None
        end
      else None
  | _ => None
  end.

Definition parse (ts : list token) : option stmt :=
  match ts with
  | t1 :: rest =>
      if kw t1 "CREATE" then
        match rest with
        | t2 :: TWord name :: open :: rest' =>
            if kw t2 "TABLE" && punct open "(" then
              match parse_coldefs rest' [] with
              | Some (cols, tail) =>
                  if end_of_statement tail then Some (SCreate name cols) else None
              | None => None
              end
            else None
        | _ => None
        end
      else if kw t1 "INSERT" then
        match rest with
        | t2 :: TWord name :: t3 :: rest' =>
            if kw t2 "INTO" && kw t3 "VALUES" then
              SInsert name <$> parse_tuples (length rest') rest' []
            else None
        | _ => None
        end
      else if kw t1 "SELECT" then
        match parse_colnames rest [] with
        | Some (cols, TWord name :: tail) =>
            match tail with
            | t2 :: tail' =>
                if kw t2 "WHERE" then SSelect cols name <$> parse_cond tail' [] []
                else if end_of_statement tail then Some (SSelect cols name [[]])
                else None
            | [] => Some (SSelect cols name [[]])
            end
        | _ => None
        end
      else None
  | [] => None
  end.

(** The identifiers the engine knows: those of the program's schema. *)
Definition known (name : string) : bool :=
  existsb (String.eqb name) ["users"; "id"; "username"].

Definition operand_known (o : operand) : bool :=
  match o with
  | OCol c => known c
  | OLit _ => true
  end.

Definition stmt_known (s : stmt) : bool :=
  match s with
  | SCreate name cols => known name && forallb known cols
  | SInsert name _ => known name
  | SSelect cols name cond =>
      known name && forallb known cols
      && forallb (forallb (λ e, operand_known (fst e) && operand_known (snd e))) cond
  end.

Definition parse_known (ts : list token) : option stmt :=
  parse ts ≫= λ s, if stmt_known s then Some s else None.

(** *** SQL: evaluation *)

Fixpoint col_index (cols : list string) (c : string) : option nat :=
  match cols with
  | [] => None
  | d :: rest => if String.eqb d c then Some O else S <$> col_index rest c
  end.

Definition cell (r : list sqlval) (i : nat) : sqlval := default VNull (r !! i).

(** The value of an operand on a row, once its column is resolved. *)
Definition resolve (cols : list string) (o : operand) : option (list sqlval → sqlval) :=
  match o with
  | OLit s => Some (λ _, VText s)
  | OCol c => (λ i r, cell r i) <$> col_index cols c
  end.

Definition resolve_eq (cols : list string) (e : operand * operand)
    : option (list sqlval → bool) :=
  f ← resolve cols (fst e);
  g ← resolve cols (snd e);
  Some (λ r, bool_decide (f r = g r)).

Definition resolve_cond (cols : list string) (cond : list (list (operand * operand)))
    : option (list sqlval → bool) :=
  ds ← mapM (mapM (resolve_eq cols)) cond;
  Some (λ r, existsb (forallb (λ p, p r)) ds).

Definition sql_error {A} (msg : string) : result A := Raise (Exn OperationalError msg).

Definition is_text (v : sqlval) : bool :=
  match v with VText _ => true | _ => false end.

(** Rows as wide as the table, of text values. *)
Definition text_table (t : Table) : bool :=
  forallb (λ r, (length r =? length (t_cols t))%nat && forallb is_text r) (t_rows t).

Definition exec (s : stmt) (db : Database) : result (list (list sqlval) * Database) :=
  match s with
  | SCreate name cols =>
      match db !! name with
      | Some _ => sql_error ("table " +:+ name +:+ " already exists")
      | None => Ok ([], <[name := mkTable cols []]> db)
      end
  | SInsert name rows =>
      match db !! name with
      | None => sql_error ("no such table: " +:+ name)
      | Some t =>
          if forallb (λ r, (length r =? length (t_cols t))%nat) rows then
            Ok ([], <[name := mkTable (t_cols t) (t_rows t ++ map (map VText) rows)]> db)
          else not_implemented "tuple of another width than the table"
      end
  | SSelect cols name cond =>
      match db !! name with
      | None => sql_error ("no such table: " +:+ name)
      | Some t =>
          match mapM (col_index (t_cols t)) cols, resolve_cond (t_cols t) cond with
          | Some idx, Some keep =>
              if text_table t then
                Ok (map (λ r, map (cell r) idx) (filter (λ r, keep r = true) (t_rows t)), db)
              else not_implemented "table with a value that is not text"
          | _, _ => not_implemented "column that the table does not have"
          end
      end
  end.

Definition ref_sql_run (q : string) (db : Database) : result (list (list sqlval) * Database) :=
  match lex LStart q ≫= parse_known with
  | Some s => exec s db
  | None => not_implemented "statement outside the reference engine"
  end.

(** *** The shell *)

Fixpoint all_chars (p : ascii → bool) (s : string) : bool :=
  match s with
  | EmptyString => true
  | String c rest => p c && all_chars p rest
  end.

(** The characters of a word the shell takes literally, and the blank. *)
Definition is_plain (c : ascii) : bool :=
  is_word_char c || Ascii.eqb c "." || Ascii.eqb c "/" || Ascii.eqb c " ".

Fixpoint split_words (cur : string) (s : string) : list string :=
  match s with
  | EmptyString => if String.eqb cur EmptyString then [] else [cur]
  | String c rest =>
      if Ascii.eqb c " " then
        if String.eqb cur EmptyString then split_words EmptyString rest
        else cur :: split_words EmptyString rest
      else split_words (snoc cur c) rest
  end.

Fixpoint join_words (ws : list string) : string :=
  match ws with
  | [] => EmptyString
  | [w] => w
  | w :: rest => w +:+ " " +:+ join_words rest
  end.

Fixpoint decimal_value (acc : Z) (s : string) : option Z :=
  match s with
  | EmptyString => Some acc
  | String c rest =>
      if between 48 57 c then decimal_value (10 * acc + (Z.of_nat (nat_of_ascii c) - 48)) rest
      else None
  end.

Definition line (s : string) : list byte := list_byte_of_string (snoc s LF).

Definition exited (code : Z) (out err : list byte) (w : World) : result completed * World :=
  (Ok (mkCompleted code out err), w).

Definition sh (words : list string) (w : World) : result completed * World :=
  match words with
  | [] => exited 0 [] [] w
  | cmd :: operands =>
      if String.eqb cmd "echo" then exited 0 (line (join_words operands)) [] w
      else if String.eqb cmd "true" then exited 0 [] [] w
      else if String.eqb cmd "false" then exited 1 [] [] w
      else if String.eqb cmd "exit" then
        match operands with
        | [] => exited 0 [] [] w
        | [n] =>
            match decimal_value 0 n with
            | Some v => exited (v mod 256) [] [] w
            | None => (not_implemented "exit with a status that is not a number", w)
            end
        | _ => (not_implemented "exit with more than one operand", w)
        end
      else if String.eqb cmd "cat" then
        match operands with
        | [f] =>
            match dbs w !! f, files w !! f with
            | None, Some (FRegular bs) => exited 0 bs [] w
            | None, None =>
                exited 1 [] (line ("cat: " +:+ f +:+ ": No such file or directory")) w
            | _, _ => (not_implemented "cat of a path that is not a readable plain file", w)
            end
        | _ => (not_implemented "cat with other than one operand", w)
        end
      else if String.eqb cmd "rm" then
        match operands with
        | [f] =>
            match dbs w !! f, files w !! f with
            | Some _, _ => exited 0 [] [] (set_dbs (delete f (dbs w)) w)
            | None, Some (FRegular _) =>
                exited 0 [] [] (mkWorld (dbs w) (conns w) (delete f (files w)) (stdout w) (executed w))
            | None, None =>
                exited 1 [] (line ("rm: cannot remove '" +:+ f +:+ "': No such file or directory")) w
            | None, _ => (not_implemented "rm of a path that is not a file", w)
            end
        | _ => (not_implemented "rm with other than one operand", w)
        end
      else (not_implemented "command the reference shell does not know", w)
  end.

Definition ref_popen (cmd : pyobj) (w : World) : result completed * World :=
  match cmd with
  | PStr s =>
      if has_char NUL s then (Raise (Exn ValueError "embedded null byte"), w)
      else if all_chars is_plain s then sh (split_words EmptyString s) w
      else (not_implemented "command line with characters the reference shell does not read", w)
  | _ => (not_implemented "command that is not a string", w)
  end.

(** *** The loader *)

Definition is_decimal (s : string) : bool :=
  match s with
  | EmptyString => false
  | String c rest =>
      if Ascii.eqb c "0" then String.eqb rest EmptyString
      else between 49 57 c && all_chars (between 48 57) rest
  end.

Definition ref_yaml_load (doc : string) (w : World) : result pyobj * World :=
  if String.eqb doc "{}" then (Ok (PDict []), w)
  else if String.eqb doc "[]" then (Ok (PList []), w)
  else if String.eqb doc "null" then (Ok PNone, w)
  else if String.eqb doc "true" then (Ok (PBool true), w)
  else if String.eqb doc "false" then (Ok (PBool false), w)
  else if String.eqb doc "!!set {}" then (Ok (PSet []), w)
  else if String.eqb doc "!!python/object/apply:os.remove [test.db]" then
    match dbs w !! "test.db" with
    | Some _ => (Ok PNone, set_dbs (delete "test.db" (dbs w)) w)
    | None => (not_implemented "a constructor that raises", w)
    end
  else if is_decimal doc then
    match decimal_value 0 doc with
    | Some n => (Ok (PInt n), w)
    | None => (not_implemented "document outside the reference loader", w)
    end
  else (not_implemented "document outside the reference loader", w).

(** *** Runtime texts *)

Definition ref_repr (o : pyobj) : string :=
  match o with
  | PStr s => "'" +:+ s +:+ "'"
  | PInt n => pretty n
  | _ => "<" +:+ py_typename o +:+ " object>"
  end.

Definition ref_codec_diag (bs : list byte) : string :=
  match bs with
  | [xff] => "'utf-8' codec can't decode byte 0xff in position 0: invalid start byte"
  | _ => "'utf-8' codec can't decode bytes"
  end.

Definition ref_encode_diag (o : pyobj) : string :=
  "Object of type " +:+ py_typename o +:+ " is not JSON serializable".

(** The magic at the head of a database file. *)
Definition ref_db_image (db : Database) : list byte :=
  list_byte_of_string (snoc "SQLite format 3" NUL).

Definition platform : Platform :=
  mkPlatform ref_sql_run ref_popen ref_yaml_load ref_repr ref_repr
             ref_codec_diag ref_encode_diag ref_db_image.

End Ref.

(** ** Stores and worlds of the statements below *)

Definition seed_rows : list (list sqlval) :=
  [[VText "1"; VText "alice"]; [VText "2"; VText "bob"]].

Definition users_schema : list string := ["id"; "username"].

(** The table [users] of the store at [App.DB_PATH], when there is one. *)
Definition users_table (w : World) : option Table :=
  dbs w !! App.DB_PATH ≫= λ db, db !! "users".

(** A store that holds the table [users] with the two seed rows only. *)
Definition seeded_db : Database :=
  {["users" := mkTable users_schema seed_rows]}.

(** Nothing on disk, no connection, nothing printed. *)
Definition empty_world : World := mkWorld ∅ [] ∅ [] [].

Definition seeded_world : World := set_dbs {[App.DB_PATH := seeded_db]} empty_world.

Definition query_request (a : list (string * string)) : Request :=
  mkRequest a (Raise (Exn UnsupportedMediaType "Unsupported Media Type")) [].

Definition json_request (j : pyobj) : Request := mkRequest [] (Ok j) [].

Definition raw_request (bs : list byte) : Request :=
  mkRequest [] (Raise (Exn UnsupportedMediaType "Unsupported Media Type")) bs.

(** The store opens as a database: there is a store at its path, or
    nothing at all (and [connect] creates it). *)
Definition store_opens (w : World) : Prop :=
  is_Some (dbs w !! App.DB_PATH) ∨ files w !! App.DB_PATH = None.

(** A world in which the path of the store is a directory. *)
Definition directory_world : World :=
  mkWorld ∅ [] {[App.DB_PATH := FDirectory]} [] [].

(** A world whose only file holds one byte that starts no UTF-8 sequence. *)
Definition binary_world : World :=
  mkWorld ∅ [] {["blob.bin" := FRegular [xff]]} [] [].

(** The line the loop of [process_data] prints at index [i]. *)
Definition line_at (P : Platform) (list_a list_b : list pyobj) (i : nat) : string :=
  "Index " +:+ pretty i +:+ ": "
  +:+ TestCode.py_str P (default PNone (list_a !! i)) +:+ " - "
  +:+ TestCode.py_str P (default PNone (list_b !! i)).


(** Plain data: [None], booleans, numbers, strings, lists and tuples of
    plain data, and dicts with string keys and plain values. *)
Fixpoint plain (o : pyobj) : bool :=
  match o with
  | PNone | PBool _ | PInt _ | PFloat _ | PStr _ => true
  | PList l | PTuple l => forallb plain l
  | PDict items => forallb (λ kv, key_is_str (fst kv) && plain (snd kv)) items
  | PBytes _ | PSet _ | PConv _ _ | PObject _ => false
  end.



(** The reference platform with another engine. *)
Definition with_engine
    (run : string → Database → result (list (list sqlval) * Database)) : Platform :=
  mkPlatform run Ref.ref_popen Ref.ref_yaml_load Ref.ref_repr Ref.ref_repr
             Ref.ref_codec_diag Ref.ref_encode_diag Ref.ref_db_image.

Definition locked : exn := Exn OperationalError "database is locked".

(** An engine that finds the database locked by another writer: it reads,
    and refuses every other statement. *)
Definition locked_run (q : string) (db : Database)
    : result (list (list sqlval) * Database) :=
  if String.prefix "SELECT" (App.upper (App.lstrip q)) then Ref.ref_sql_run q db
  else Raise locked.

(** An engine that finds the database locked when a transaction begins. *)
Definition dml_locked_run (q : string) (db : Database)
    : result (list (list sqlval) * Database) :=
  if App.is_dml q then Raise locked else Ref.ref_sql_run q db.


(** A world with one file of two lines, the first ended by CR LF. *)
Definition notes_world : World :=
  mkWorld ∅ [] {["notes.txt" := FRegular [x61; x0d; x0a; x62; x0a];
                 "plain.txt" := FRegular [x61; x0a; x62; x0a]]} [] [].

(** ** What is assumed of the SQL engine

    Each law is a statement about the engine on statements of one shape;
    [Ref.platform] satisfies all of them (section "The reference platform
    meets the laws"). *)

(** A value that can stand between the quotes of a literal as it is. *)
Definition sql_plain (v : string) : bool :=
  negb (has_char QUOTE v) && negb (has_char NUL v).

(** On a table [users] of text pairs, selecting by a literal id gives the
    rows with that id, in the order of the table, and changes nothing. *)
Definition select_law (P : Platform) : Prop :=
  ∀ (v : string) (db : Database) (t : Table),
    sql_plain v = true →
    db !! "users" = Some t →
    t_cols t = users_schema →
    Forall (λ r, ∃ a b, r = [VText a; VText b]) (t_rows t) →
    sql_run P ("SELECT id, username FROM users WHERE id = '" +:+ v +:+ "'") db
    = Ok (filter (λ r, r !! 0%nat = Some (VText v)) (t_rows t), db).

(** One call of [execute] runs one statement, and a SELECT writes nothing. *)
Definition select_readonly_law (P : Platform) : Prop :=
  ∀ (q : string) (db db' : Database) (rows : list (list sqlval)),
    String.prefix "SELECT " q = true →
    sql_run P q db = Ok (rows, db') →
    db' = db.

(** The CREATE TABLE of the bootstrap adds the empty table [users] with its
    two columns to a database that has no such table. *)
Definition create_law (P : Platform) : Prop :=
  ∀ db : Database,
    db !! "users" = None →
    sql_run P "CREATE TABLE users (id TEXT, username TEXT)" db
    = Ok ([], <["users" := mkTable users_schema []]> db).

(** The INSERT of the bootstrap appends the two seed rows, in the order of
    the statement, to the table [users] of the program. *)
Definition insert_law (P : Platform) : Prop :=
  ∀ (db : Database) (t : Table),
    db !! "users" = Some t →
    t_cols t = users_schema →
    sql_run P "INSERT INTO users VALUES ('1', 'alice'), ('2', 'bob')" db
    = Ok ([], <["users" := mkTable (t_cols t) (t_rows t ++ seed_rows)]> db).

(** ** The standalone script *)

Section ScriptFacts.

Context (P : Platform).

Lemma for_each_app {A} (l1 l2 : list A) (body : A → M unit) (w : World) :
  TestCode.for_each (l1 ++ l2) body w
  = match TestCode.for_each l1 body w with
    | (Ok _, w1) => TestCode.for_each l2 body w1
    | (Raise e, w1) => (Raise e, w1)
    end.
Proof.
  revert w. induction l1 as [|x l1 IH]; intros w; simpl; [reflexivity|].
  unfold mbind, M_bind. destruct (body x w) as [[[]|e] w1]; [apply IH | reflexivity].
Qed.

(** While both lists have an item at every index, the loop prints. *)
Lemma loop_prints (list_a list_b : list pyobj) (m k : nat) (w : World) :
  (k + m ≤ length list_a)%nat →
  (k + m ≤ length list_b)%nat →
  TestCode.for_each (seq k m) (λ i,
    item_a ← TestCode.list_index list_a i;
    item_b ← TestCode.list_index list_b i;
    TestCode.print ("Index " +:+ pretty i +:+ ": " +:+ TestCode.py_str P item_a
                    +:+ " - " +:+ TestCode.py_str P item_b)) w
  = (Ok (), set_stdout (stdout w ++ map (line_at P list_a list_b) (seq k m)) w).
Proof.
  revert k w. induction m as [|m IH]; intros k w Ha Hb; simpl.
  - unfold mret, M_ret, set_stdout. rewrite app_nil_r. by destruct w.
  - destruct (lookup_lt_is_Some_2 list_a k) as [a Hka]; [lia|].
    destruct (lookup_lt_is_Some_2 list_b k) as [b Hkb]; [lia|].
    unfold mbind, M_bind, TestCode.list_index at 1 2. rewrite Hka, Hkb. simpl.
    unfold mret, M_ret, TestCode.print at 1. simpl.
    specialize (IH (S k)). unfold mbind, M_bind in IH. rewrite IH by lia.
    unfold line_at at 2. rewrite Hka, Hkb. simpl.
    f_equal. unfold set_stdout; simpl. f_equal. by rewrite <- app_assoc.
Qed.

(** C9: when the first list is strictly longer than the second,
    [process_data] prints one line for each index below [len(list_b)] and
    then raises the index fault at index [len(list_b)]; the call of the
    script, [process_data([1, 2], ["apple"])], prints one line and ends in
    that fault. *)
Theorem process_data_index_fault (list_a list_b : list pyobj) (w : World) :
  (length list_b < length list_a)%nat →
  let lines := map (line_at P list_a list_b) (seq 0 (length list_b)) in
  TestCode.process_data P list_a list_b w
  = (Raise (Exn IndexError "list index out of range"), set_stdout (stdout w ++ lines) w)
  ∧ length lines = length list_b
  ∧ (∀ (i : nat) (a b : pyobj),
       list_a !! i = Some a → list_b !! i = Some b →
       lines !! i = Some ("Index " +:+ pretty i +:+ ": " +:+ TestCode.py_str P a
                          +:+ " - " +:+ TestCode.py_str P b))
  ∧ TestCode.script P w
    = (Raise (Exn IndexError "list index out of range"),
       set_stdout (stdout w ++ ["Index 0: 1 - apple"]) w).
Proof.
  intros Hlt lines. split; [|split; [|split]].
  - unfold TestCode.process_data, TestCode.range.
    replace (length list_a) with (length list_b + S (length list_a - S (length list_b)))%nat by lia.
    rewrite seq_app, for_each_app, loop_prints by lia.
    simpl. unfold mbind, M_bind, TestCode.list_index at 1 2.
    destruct (lookup_lt_is_Some_2 list_a (length list_b)) as [a Ha]; [lia|].
    rewrite Ha. simpl. rewrite (lookup_ge_None_2 list_b (length list_b)) by lia.
    reflexivity.
  - unfold lines. by rewrite length_map, length_seq.
  - intros i a b Ha Hb. unfold lines.
    assert (i < length list_b)%nat as Hi by (eapply lookup_lt_Some; eauto).
    rewrite list_lookup_fmap, lookup_seq_lt by done. simpl.
    unfold line_at. by rewrite Ha, Hb.
  - reflexivity.
Qed.

End ScriptFacts.

(** The script on the reference platform: one line, then the fault. *)
Lemma process_data_index_fault_witness :
  let lines := map (line_at Ref.platform [PInt 1; PInt 2] [PStr "apple"]) (seq 0 1) in
  TestCode.process_data Ref.platform [PInt 1; PInt 2] [PStr "apple"] empty_world
  = (Raise (Exn IndexError "list index out of range"),
     set_stdout (stdout empty_world ++ lines) empty_world)
  ∧ length lines = 1%nat
  ∧ (∀ (i : nat) (a b : pyobj),
       [PInt 1; PInt 2] !! i = Some a → [PStr "apple"] !! i = Some b →
       lines !! i = Some ("Index " +:+ pretty i +:+ ": " +:+ TestCode.py_str Ref.platform a
                          +:+ " - " +:+ TestCode.py_str Ref.platform b))
  ∧ TestCode.script Ref.platform empty_world
    = (Raise (Exn IndexError "list index out of range"),
       set_stdout (stdout empty_world ++ ["Index 0: 1 - apple"]) empty_world).
Proof.
  apply (process_data_index_fault Ref.platform [PInt 1; PInt 2] [PStr "apple"] empty_world).
  simpl. lia.
Defined.

(** ** [GET /user] *)

Section UserFacts.

Context (P : Platform).

Lemma user_query_not_dml (user_id : string) :
  App.is_dml (App.user_query user_id) = false.
Proof. vm_compute. reflexivity. Qed.

Lemma user_query_select (user_id : string) :
  String.prefix "SELECT " (App.user_query user_id) = true.
Proof. vm_compute. reflexivity. Qed.

(** The store as [connect] leaves it: the file exists from then on. *)
Lemma connect_lookup (w : World) :
  match dbs w !! App.DB_PATH with
  | Some _ => dbs w
  | None => <[App.DB_PATH := ∅]> (dbs w)
  end !! App.DB_PATH = Some (default ∅ (dbs w !! App.DB_PATH)).
Proof.
  destruct (dbs w !! App.DB_PATH) as [db|] eqn:E; simpl; [done|].
  apply lookup_insert_eq.
Qed.

Lemma store_opens_open (w : World) :
  store_opens w →
  App.open_store App.DB_PATH w
  = Ok (match dbs w !! App.DB_PATH with
        | Some _ => dbs w
        | None => <[App.DB_PATH := ∅]> (dbs w)
        end).
Proof.
  unfold App.open_store. intros [[db Hdb]|Hfile].
  - by rewrite Hdb.
  - rewrite Hfile. by destruct (dbs w !! App.DB_PATH).
Qed.

Lemma working_copy_store (path : string) (d : Database) (w : World) :
  dbs w !! path = Some d → App.working_copy path None w = Ok d.
Proof. intros H. unfold App.working_copy. by rewrite H. Qed.

(** The handler, statement by statement, in every world: the fault of
    opening, or, on the connection it has acquired, the fault of the
    driver, the fault of the engine or the rows as JSON, and the connection
    closed. *)
Lemma get_user_run (request : Request) (w : World) :
  let query := App.user_query (args_get (args request) "id" "") in
  App.get_user P request w =
  match App.open_store App.DB_PATH w with
  | Raise e => (Raise e, w)
  | Ok d0 =>
      match App.working_copy App.DB_PATH None (set_dbs d0 w) with
      | Raise e =>
          (Raise e, mkWorld d0 (conns w ++ [CClosed]) (files w) (stdout w)
                            (executed w ++ [query]))
      | Ok cur =>
          match sql_run P query cur with
          | Raise e =>
              (Raise e, mkWorld d0 (conns w ++ [CClosed]) (files w) (stdout w)
                                (executed w ++ [query]))
          | Ok (rows, d') =>
              (fst (App.jsonify P (PDict [(PStr "rows", PList (App.fetchall rows))]) w),
               mkWorld (<[App.DB_PATH := d']> d0) (conns w ++ [CClosed]) (files w)
                       (stdout w) (executed w ++ [query]))
          end
      end
  end.
Proof.
  intros query.
  unfold App.get_user, App.get_db, App.connect, try_finally.
  unfold mbind at 1. unfold M_bind at 1.
  destruct (App.open_store App.DB_PATH w) as [d0|e]; [|reflexivity].
  cbv beta iota zeta. fold query.
  unfold mbind, M_bind, App.execute.
  cbn [conns set_conns set_dbs set_executed dbs files stdout executed].
  rewrite lookup_app_r, Nat.sub_diag by lia. cbn [lookup list_lookup].
  change (App.working_copy App.DB_PATH None _)
    with (App.working_copy App.DB_PATH None (set_dbs d0 w)).
  destruct (App.working_copy App.DB_PATH None (set_dbs d0 w)) as [cur|e].
  - destruct (sql_run P query cur) as [[rows d']|e].
    + unfold query at 1. rewrite user_query_not_dml. cbn [orb bool_decide].
      rewrite bool_decide_eq_false_2 by (intros [? ?]; done). cbn [orb].
      unfold App.jsonify. destruct (to_json _);
        unfold App.close, set_conns, set_dbs, set_executed, mret, M_ret, raise;
        cbn [conns dbs files stdout executed fst];
        rewrite insert_app_r_alt, Nat.sub_diag by lia; reflexivity.
    + unfold App.close, set_conns, set_dbs, set_executed.
      cbn [conns dbs files stdout executed].
      rewrite insert_app_r_alt, Nat.sub_diag by lia. reflexivity.
  - unfold App.close, set_conns, set_dbs, set_executed.
    cbn [conns dbs files stdout executed].
    rewrite insert_app_r_alt, Nat.sub_diag by lia. reflexivity.
Qed.

(** The same where the store opens. *)
Lemma get_user_unfold (request : Request) (w : World) :
  store_opens w →
  let query := App.user_query (args_get (args request) "id" "") in
  let d0 := match dbs w !! App.DB_PATH with
            | Some _ => dbs w
            | None => <[App.DB_PATH := ∅]> (dbs w)
            end in
  let cur := default ∅ (dbs w !! App.DB_PATH) in
  App.get_user P request w =
  match sql_run P query cur with
  | Raise e =>
      (Raise e, mkWorld d0 (conns w ++ [CClosed]) (files w) (stdout w) (executed w ++ [query]))
  | Ok (rows, d') =>
      (fst (App.jsonify P (PDict [(PStr "rows", PList (App.fetchall rows))]) w),
       mkWorld (<[App.DB_PATH := d']> d0) (conns w ++ [CClosed]) (files w) (stdout w)
               (executed w ++ [query]))
  end.
Proof.
  intros Hopen query d0 cur.
  rewrite get_user_run, (store_opens_open w Hopen). fold d0. fold query.
  rewrite (working_copy_store App.DB_PATH cur); [reflexivity|].
  apply connect_lookup.
Qed.


(** C7: the connection the handler acquires is closed when the handler is
    left, whether it returns a response or the driver, the engine or the
    encoding of the rows raises: whenever [get_db] hands out a connection,
    it is the one connection added to those of the driver and it is closed
    in the final world.  When [get_db] itself raises, no connection has
    been acquired: the handler is left with that fault and the world as it
    was.  In every case a connection that the handler leaves behind is
    closed. *)
Theorem get_user_closes_connection (request : Request) (w : World) :
  let w' := snd (App.get_user P request w) in
  (∀ c, fst (App.get_db w) = Ok c →
        conns w' = (conns w ++ [CClosed])%list ∧ conns w' !! c = Some CClosed)
  ∧ (∀ e, fst (App.get_db w) = Raise e → App.get_user P request w = (Raise e, w))
  ∧ (∀ (i : nat) (c : conn_state),
       (length (conns w) ≤ i)%nat → conns w' !! i = Some c → c = CClosed).
Proof.
  intros w'. unfold w'. rewrite get_user_run. unfold App.get_db, App.connect.
  destruct (App.open_store App.DB_PATH w) as [d0|e0].
  - assert (∀ r d x, conns (snd
              (match App.working_copy App.DB_PATH None (set_dbs d0 w) with
               | Raise e => (Raise e, mkWorld d0 (conns w ++ [CClosed]) (files w) (stdout w) x)
               | Ok cur =>
                   match sql_run P (App.user_query (args_get (args request) "id" "")) cur with
                   | Raise e =>
                       (Raise e, mkWorld d0 (conns w ++ [CClosed]) (files w) (stdout w) x)
                   | Ok (rows, d') =>
                       (r rows, mkWorld (d d') (conns w ++ [CClosed]) (files w) (stdout w) x)
                   end
               end : result Response * World)) = (conns w ++ [CClosed])%list) as Hc.
    { intros r d x. destruct (App.working_copy _ _ _) as [cur|e]; [|done].
      by destruct (sql_run P _ cur) as [[rows d']|e]. }
    rewrite Hc.
    assert ((conns w ++ [CClosed])%list !! length (conns w) = Some CClosed) as Hl
      by (by rewrite lookup_app_r, Nat.sub_diag by lia).
    split; [|split].
    + intros c [= <-]. by split.
    + intros e [=].
    + intros i c Hi Hlook.
      rewrite lookup_app_r in Hlook by done.
      destruct (i - length (conns w))%nat as [|n]; [by injection Hlook as <-|done].
  - cbn [fst snd]. split; [|split].
    + intros c [=].
    + by intros e [= <-].
    + intros i c Hi Hlook. apply lookup_lt_Some in Hlook. lia.
Qed.

Lemma open_store_users (w : World) (d0 : gmap string Database) :
  App.open_store App.DB_PATH w = Ok d0 →
  d0 !! App.DB_PATH ≫= (λ db : Database, db !! "users") = users_table w.
Proof.
  unfold App.open_store, users_table.
  destruct (dbs w !! App.DB_PATH) as [db|] eqn:Hdb.
  - intros [= <-]. by rewrite Hdb.
  - destruct (files w !! App.DB_PATH) as [[bs| |]|]; intros [= <-].
    + by rewrite Hdb.
    + by rewrite lookup_insert_eq.
Qed.

Lemma working_copy_users (w : World) (cur : Database) :
  App.working_copy App.DB_PATH None w = Ok cur →
  cur !! "users" = users_table w.
Proof.
  unfold App.working_copy, users_table.
  destruct (dbs w !! App.DB_PATH) as [db|].
  - by intros [= <-].
  - destruct (files w !! App.DB_PATH) as [[[|b bs]| |]|]; by intros [= <-].
Qed.

(** Whatever the outcome, the handler leaves the table [users] of the
    store as the engine leaves it; with an engine that writes nothing on a
    SELECT, as it was. *)
Lemma get_user_users_table (request : Request) (w : World) :
  select_readonly_law P →
  users_table (snd (App.get_user P request w)) = users_table w.
Proof.
  intros Hro. rewrite get_user_run.
  destruct (App.open_store App.DB_PATH w) as [d0|e0] eqn:Hopen; [|done].
  apply open_store_users in Hopen.
  destruct (App.working_copy App.DB_PATH None (set_dbs d0 w)) as [cur|e] eqn:Hcur.
  - apply working_copy_users in Hcur. unfold users_table at 1 in Hcur. cbn [dbs set_dbs] in Hcur.
    destruct (sql_run P _ cur) as [[rows d']|e] eqn:Hrun.
    + apply Hro in Hrun as ->; [|apply user_query_select].
      unfold users_table at 1. cbn [snd dbs]. rewrite lookup_insert_eq.
      cbn [mbind option_bind]. by rewrite Hcur.
    + unfold users_table at 1. cbn [snd dbs]. exact Hopen.
  - unfold users_table at 1. cbn [snd dbs]. exact Hopen.
Qed.

End UserFacts.

(** ** The reference platform meets the laws *)

Section RefLaws.

Import Ref.

Lemma prefix_app (p q : string) :
  String.prefix p q = true → ∃ s, q = p +:+ s.
Proof.
  revert q. induction p as [|a p IH]; intros q H; simpl in *.
  - by exists q.
  - destruct q as [|b q]; [done|].
    change (String.prefix (String a p) (String b q))
      with (if ascii_dec a b then String.prefix p q else false) in H.
    destruct (ascii_dec a b) as [->|]; [|done].
    destruct (IH q H) as [s ->]. by exists s.
Qed.

Lemma append_cons (d : ascii) (a v : string) :
  String d a +:+ v = String d (a +:+ v).
Proof. reflexivity. Qed.

Lemma append_snoc (a : string) (c : ascii) (v : string) :
  snoc a c +:+ v = a +:+ String c v.
Proof.
  unfold snoc. induction a as [|d a IH]; [done|].
  by rewrite !append_cons, IH.
Qed.

Lemma append_empty_r (a : string) : a +:+ EmptyString = a.
Proof. induction a as [|d a IH]; [done | by rewrite append_cons, IH]. Qed.

(** A literal without a quote in it is read up to its closing quote. *)
Lemma lex_literal (v a : string) :
  has_char QUOTE v = false →
  lex (LString a) (v +:+ String QUOTE EmptyString) = Some [TStr (a +:+ v)].
Proof.
  revert a. induction v as [|c v IH]; intros a H.
  - change (lex (LString a) (String QUOTE EmptyString)) with (Some [TStr a]).
    by rewrite append_empty_r.
  - change (has_char QUOTE (String c v))
      with (Ascii.eqb QUOTE c || has_char QUOTE v) in H.
    apply orb_false_elim in H as [Hc Hv].
    rewrite append_cons. cbn [lex]. rewrite (Ascii.eqb_sym c QUOTE), Hc.
    rewrite IH by done. by rewrite append_snoc.
Qed.

Lemma lex_user_query (v : string) :
  has_char QUOTE v = false →
  lex LStart (App.user_query v)
  = Some [TWord "SELECT"; TWord "id"; TPunct ","; TWord "username"; TWord "FROM";
          TWord "users"; TWord "WHERE"; TWord "id"; TPunct "="; TStr v].
Proof.
  intros H.
  change (lex LStart (App.user_query v))
    with (cons (TWord "SELECT") <$> (cons (TWord "id") <$> (cons (TPunct ",") <$>
          (cons (TWord "username") <$> (cons (TWord "FROM") <$> (cons (TWord "users") <$>
          (cons (TWord "WHERE") <$> (cons (TWord "id") <$> (cons (TPunct "=") <$>
          lex (LString EmptyString) (v +:+ String QUOTE EmptyString)))))))))).
  by rewrite lex_literal.
Qed.

Lemma text_pairs_table (rows : list (list sqlval)) :
  Forall (λ r, ∃ a b, r = [VText a; VText b]) rows →
  text_table (mkTable users_schema rows) = true.
Proof.
  unfold text_table. cbn [t_rows t_cols].
  induction 1 as [|r rows (a & b & ->) _ IH]; [done|].
  cbn [forallb]. by rewrite IH.
Qed.

Lemma select_by_id_rows (v : string) (rows : list (list sqlval)) :
  Forall (λ r, ∃ a b, r = [VText a; VText b]) rows →
  map (λ r : list sqlval, map (cell r) [0%nat; 1%nat])
      (filter (λ r : list sqlval,
                 existsb (forallb (λ p : list sqlval → bool, p r))
                         [[λ r, bool_decide (cell r 0 = VText v)]] = true) rows)
  = filter (λ r : list sqlval, r !! 0%nat = Some (VText v)) rows.
Proof.
  induction 1 as [|r rows (a & b & ->) _ IH]; [done|].
  rewrite !filter_cons.
  destruct (decide (existsb _ _ = true)) as [Ha|Ha];
    destruct (decide (_ !! 0%nat = Some (VText v))) as [Hb|Hb].
  - cbn [map]. f_equal. exact IH.
  - exfalso. apply Hb. cbn in Ha. rewrite orb_false_r, andb_true_r in Ha.
    apply bool_decide_eq_true in Ha. by rewrite <- Ha.
  - exfalso. apply Ha. cbn. rewrite orb_false_r, andb_true_r.
    apply bool_decide_eq_true. cbn in Hb. congruence.
  - exact IH.
Qed.

Lemma ref_select_law : select_law platform.
Proof.
  intros v db t Hv Hdb Hcols Hrows.
  apply andb_prop in Hv as [Hq _]. apply negb_true_iff in Hq.
  change (sql_run platform ?q db) with (ref_sql_run q db).
  change ("SELECT id, username FROM users WHERE id = '" +:+ v +:+ "'")
    with (App.user_query v).
  unfold ref_sql_run. rewrite lex_user_query by done.
  change (Some _ ≫= parse_known)
    with (Some (SSelect users_schema "users" [[(OCol "id", OLit v)]])).
  cbn [exec]. rewrite Hdb.
  destruct t as [cols rows]. cbn [t_cols t_rows] in *. subst cols.
  rewrite (text_pairs_table rows Hrows).
  change (mapM (col_index users_schema) users_schema) with (Some [0%nat; 1%nat]).
  change (resolve_cond users_schema [[(OCol "id", OLit v)]])
    with (Some (λ r : list sqlval,
                  existsb (forallb (λ p : list sqlval → bool, p r))
                          [[λ r, bool_decide (cell r 0 = VText v)]])).
  cbn iota. f_equal. f_equal. exact (select_by_id_rows v rows Hrows).
Qed.

Lemma parse_select (ts : list token) (st : stmt) :
  parse (TWord "SELECT" :: ts) = Some st →
  ∃ cols name cond, st = SSelect cols name cond.
Proof.
  unfold parse. simpl. intros H.
  repeat case_match; simplify_eq; eauto.
  all: match goal with
       | H : _ <$> _ = Some _ |- _ => apply fmap_Some in H as (? & ? & ->); eauto
       end.
Qed.

Lemma exec_select_readonly cols name cond (db db' : Database) rows :
  exec (SSelect cols name cond) db = Ok (rows, db') → db' = db.
Proof.
  unfold exec, sql_error, not_implemented. intros H. repeat case_match; by simplify_eq.
Qed.

Lemma ref_select_readonly_law : select_readonly_law platform.
Proof.
  intros q db db' rows Hp Hrun.
  apply prefix_app in Hp as [s ->].
  change (sql_run platform ?q db) with (ref_sql_run q db) in Hrun.
  unfold ref_sql_run in Hrun.
  change (lex LStart ("SELECT " +:+ s)) with (cons (TWord "SELECT") <$> lex LStart s) in Hrun.
  destruct (lex LStart s) as [ts|]; [|done].
  change ((cons (TWord "SELECT") <$> Some ts) ≫= parse_known)
    with (parse (TWord "SELECT" :: ts) ≫= λ s, if stmt_known s then Some s else None) in Hrun.
  destruct (parse (TWord "SELECT" :: ts)) as [st|] eqn:E; [|done].
  apply parse_select in E as (cols & name & cond & ->).
  cbn [mbind option_bind] in Hrun.
  destruct (stmt_known _); [|done].
  by eapply exec_select_readonly.
Qed.

Lemma ref_create_law : create_law platform.
Proof.
  intros db H.
  change (sql_run platform ?q db) with (ref_sql_run q db).
  unfold ref_sql_run.
  assert (lex LStart "CREATE TABLE users (id TEXT, username TEXT)" ≫= parse_known
          = Some (SCreate "users" users_schema)) as -> by (vm_compute; reflexivity).
  simpl. by rewrite H.
Qed.

Lemma ref_insert_law : insert_law platform.
Proof.
  intros db t H Hcols.
  change (sql_run platform ?q db) with (ref_sql_run q db).
  unfold ref_sql_run.
  assert (lex LStart "INSERT INTO users VALUES ('1', 'alice'), ('2', 'bob')" ≫= parse_known
          = Some (SInsert "users" [["1"; "alice"]; ["2"; "bob"]])) as ->
    by (vm_compute; reflexivity).
  simpl. rewrite H, Hcols. reflexivity.
Qed.

End RefLaws.

(** ** [GET /user] on the seeded store, and the bootstrap *)

Section StoreFacts.

Context (P : Platform).

Lemma args_get_absent (a : list (string * string)) (key default : string) :
  Forall (λ kv, kv.1 ≠ key) a → args_get a key default = default.
Proof.
  induction 1 as [|[k v] a Hk _ IH]; simpl; [done|].
  destruct (String.eqb_spec k key) as [->|]; [done | exact IH].
Qed.



(** C10: a request without the parameter [id] makes the handler use the
    empty string; the statement executed is
    [SELECT id, username FROM users WHERE id = ''], neither seed row has
    that id, and on the bootstrapped store the answer is 200 with
    [{"rows": []}]. *)
Theorem get_user_without_id_returns_no_rows (request : Request) (w : World) (db : Database) :
  select_law P →
  Forall (λ kv, kv.1 ≠ "id") (args request) →
  dbs w !! App.DB_PATH = Some db →
  db !! "users" = Some (mkTable users_schema seed_rows) →
  executed (snd (App.get_user P request w))
  = (executed w ++ ["SELECT id, username FROM users WHERE id = ''"])%list
  ∧ fst (App.get_user P request w)
    = Ok (mkResponse 200 (Json (JObj [("rows", JArr [])]))).
Proof.
  intros Hlaw Hargs Hdb Ht.
  assert (Forall (λ r : list sqlval, ∃ a b, r = [VText a; VText b]) seed_rows) as Hseed.
  { unfold seed_rows. repeat constructor; by do 2 eexists. }
  pose proof (Hlaw EmptyString db _ eq_refl Ht eq_refl Hseed) as Hq.
  change ("SELECT id, username FROM users WHERE id = '" +:+ "" +:+ "'")
    with (App.user_query EmptyString) in Hq.
  rewrite get_user_unfold by (left; by rewrite Hdb).
  rewrite (args_get_absent _ _ _ Hargs), Hdb. simpl.
  rewrite Hq. split; reflexivity.
Qed.

End StoreFacts.

Section BootstrapFacts.

Context (P : Platform).

Lemma bootstrap_present (w : World) :
  is_Some (dbs w !! App.DB_PATH) ∨ is_Some (files w !! App.DB_PATH) →
  App.bootstrap P w = (Ok (), w).
Proof.
  intros H. unfold App.bootstrap, App.path_exists, mbind, M_bind.
  destruct H as [H|H].
  - by rewrite (bool_decide_eq_true_2 _ H).
  - rewrite (bool_decide_eq_true_2 (is_Some (files w !! App.DB_PATH)) H).
    by rewrite orb_true_r.
Qed.

(** The driver on a connection without open transaction, on a store. *)
Lemma execute_autocommit (c : nat) (q path : string) (w : World) rows (cur d' : Database) :
  conns w !! c = Some (COpen path None) →
  dbs w !! path = Some cur →
  App.is_dml q = false →
  sql_run P q cur = Ok (rows, d') →
  App.execute P c q w
  = (Ok rows, mkWorld (<[path := d']> (dbs w)) (conns w) (files w) (stdout w)
                      (executed w ++ [q])).
Proof.
  intros Hc Hcur Hq Hrun. unfold App.execute. rewrite Hc.
  unfold App.working_copy. cbn [dbs set_executed]. rewrite Hcur, Hrun, Hq. reflexivity.
Qed.

Lemma execute_begins (c : nat) (q path : string) (w : World) rows (cur d' : Database) :
  conns w !! c = Some (COpen path None) →
  dbs w !! path = Some cur →
  App.is_dml q = true →
  sql_run P q cur = Ok (rows, d') →
  App.execute P c q w
  = (Ok rows, mkWorld (dbs w) (<[c := COpen path (Some d')]> (conns w)) (files w)
                      (stdout w) (executed w ++ [q])).
Proof.
  intros Hc Hcur Hq Hrun. unfold App.execute. rewrite Hc.
  unfold App.working_copy. cbn [dbs set_executed]. rewrite Hcur, Hrun, Hq. reflexivity.
Qed.

Lemma execute_raises (c : nat) (q path : string) (w : World) (cur : Database) (e : exn) :
  conns w !! c = Some (COpen path None) →
  dbs w !! path = Some cur →
  sql_run P q cur = Raise e →
  App.execute P c q w
  = (Raise e, mkWorld (dbs w) (conns w) (files w) (stdout w) (executed w ++ [q])).
Proof.
  intros Hc Hcur Hrun. unfold App.execute. rewrite Hc.
  unfold App.working_copy. cbn [dbs set_executed]. by rewrite Hcur, Hrun.
Qed.

(** [connect] where nothing is at the path. *)
Lemma connect_absent (path : string) (w : World) :
  dbs w !! path = None → files w !! path = None →
  App.connect path w
  = (Ok (length (conns w)),
     mkWorld (<[path := ∅]> (dbs w)) (conns w ++ [COpen path None]) (files w) (stdout w)
             (executed w)).
Proof.
  intros Hdb Hfile. unfold App.connect, App.open_store. by rewrite Hdb, Hfile.
Qed.

Lemma commit_publishes (c : nat) (path : string) (d : Database) (w : World) :
  conns w !! c = Some (COpen path (Some d)) →
  App.commit c w
  = (Ok (), mkWorld (<[path := d]> (dbs w)) (<[c := COpen path None]> (conns w))
                    (files w) (stdout w) (executed w)).
Proof. intros Hc. unfold App.commit. by rewrite Hc. Qed.

Lemma bootstrap_absent (w : World) :
  create_law P → insert_law P →
  dbs w !! App.DB_PATH = None → files w !! App.DB_PATH = None →
  App.bootstrap P w
  = (Ok (), mkWorld (<[App.DB_PATH := seeded_db]> (dbs w)) (conns w ++ [CClosed])
                    (files w) (stdout w)
                    (executed w ++ ["CREATE TABLE users (id TEXT, username TEXT)";
                                    "INSERT INTO users VALUES ('1', 'alice'), ('2', 'bob')"])).
Proof.
  intros Hcreate Hinsert Hdb Hfile.
  unfold App.bootstrap, App.path_exists, mbind, M_bind.
  rewrite Hdb, Hfile.
  rewrite !bool_decide_eq_false_2 by (intros [? ?]; done).
  cbn [orb negb].
  rewrite (connect_absent _ _ Hdb Hfile).
  set (c := length (conns w)).
  assert ((conns w ++ [COpen App.DB_PATH None])%list !! c = Some (COpen App.DB_PATH None)) as Hc.
  { unfold c. by rewrite lookup_app_r, Nat.sub_diag by lia. }
  erewrite execute_autocommit;
    [| exact Hc | cbn [dbs]; apply lookup_insert_eq | by vm_compute | by apply Hcreate].
  cbn [dbs conns files stdout executed].
  erewrite execute_begins;
    [| exact Hc | cbn [dbs]; apply lookup_insert_eq | by vm_compute
     | apply Hinsert; [apply lookup_insert_eq | done]].
  cbn [dbs conns files stdout executed].
  erewrite commit_publishes.
  2: { cbn [conns]. unfold c. rewrite insert_app_r_alt, Nat.sub_diag by lia. 
       by rewrite lookup_app_r, Nat.sub_diag by lia. }
  unfold App.close, set_conns. cbn [dbs conns files stdout executed t_cols t_rows].
  f_equal. f_equal.
  - rewrite !insert_insert_eq. reflexivity.
  - unfold c. rewrite !insert_app_r_alt, !Nat.sub_diag by lia. reflexivity.
  - by rewrite <- !app_assoc.
Qed.

(** C6: when neither a store nor any other file is at the path of the
    store, the bootstrap leaves there a store that holds the table
    [users(id, username)] with the rows [('1', 'alice')] and [('2', 'bob')]
    and nothing else, on a connection that it closes, and a second run
    changes nothing; when the path exists, the bootstrap changes nothing. *)
Theorem bootstrap_seeds_absent_store_only (w : World) :
  create_law P → insert_law P →
  (dbs w !! App.DB_PATH = None → files w !! App.DB_PATH = None →
     let w' := snd (App.bootstrap P w) in
     fst (App.bootstrap P w) = Ok ()
     ∧ dbs w' = <[App.DB_PATH := seeded_db]> (dbs w)
     ∧ users_table w' = Some (mkTable users_schema seed_rows)
     ∧ conns w' = (conns w ++ [CClosed])%list
     ∧ files w' = files w
     ∧ App.bootstrap P w' = (Ok (), w'))
  ∧ (is_Some (dbs w !! App.DB_PATH) ∨ is_Some (files w !! App.DB_PATH) →
     App.bootstrap P w = (Ok (), w)).
Proof.
  intros Hcreate Hinsert. split; [|apply bootstrap_present].
  intros Hdb Hfile w'.
  unfold w'. rewrite (bootstrap_absent w Hcreate Hinsert Hdb Hfile). cbn [fst snd dbs conns files].
  repeat split.
  - unfold users_table. cbn [dbs]. rewrite lookup_insert_eq. reflexivity.
  - apply bootstrap_present. left. cbn [dbs]. rewrite lookup_insert_eq. by eexists.
Qed.

End BootstrapFacts.

(** ** [POST /run], [GET /read], [POST /config] *)

Section SinkFacts.

Context (P : Platform).

Lemma decode_valid (bs : list byte) :
  utf8_valid bs = true →
  App.decode_utf8 P bs = Ok (string_of_list_byte bs).
Proof. intros H. unfold App.decode_utf8. by rewrite H. Qed.

Lemma decode_invalid (bs : list byte) :
  utf8_valid bs = false →
  App.decode_utf8 P bs = Raise (Exn UnicodeDecodeError (codec_diag P bs)).
Proof. intros H. unfold App.decode_utf8. by rewrite H. Qed.

(** The handler once the command is known and the process has completed. *)
Lemma run_unfold (request : Request) (w w' : World) (items : list (pyobj * pyobj))
    (cmd : string) (proc : completed) :
  json_body request = Ok (PDict items) →
  items_get items "cmd" (PStr "echo Hello") = PStr cmd →
  popen P (PStr cmd) w = (Ok proc, w') →
  App.run P request w
  = (if negb (returncode proc =? 0)
     then match App.decode_utf8 P (proc_stderr proc) with
          | Ok err => Ok (mkResponse 500 (Text err))
          | Raise e => Raise e
          end
     else match App.decode_utf8 P (proc_stdout proc) with
          | Ok out => Ok (mkResponse 200 (Text out))
          | Raise e => Raise e
          end, w').
Proof.
  intros Hj Hcmd Hproc.
  unfold App.run, lift, mbind, M_bind, App.method_get. rewrite Hj. cbn [mret M_ret].
  rewrite Hcmd, Hproc.
  destruct (negb (returncode proc =? 0));
    [destruct (App.decode_utf8 P (proc_stderr proc))
    |destruct (App.decode_utf8 P (proc_stdout proc))]; reflexivity.
Qed.

(** C2, as the code has it: for every command string that the shell could
    be spawned for, the handler looks at the return code only.  Code 0: the
    standard output, status 200, when it is well-formed UTF-8; another code:
    the standard error, status 500, when it is well-formed UTF-8; in both
    cases the body is sent as the very bytes of the stream.  A stream that is
    not well-formed UTF-8 makes [decode] raise, and the fault leaves the
    handler.  Among the responses of the handler, 200 stands for code 0 and
    500 for another code.  With a shell that prints [Hello] and a line feed
    for [echo Hello] the response is 200 with that body; for [exit 3], which
    writes nothing, it is 500. *)
Theorem run_status_follows_returncode (request : Request) (w w' : World)
    (items : list (pyobj * pyobj)) (cmd : string) (proc : completed) :
  json_body request = Ok (PDict items) →
  items_get items "cmd" (PStr "echo Hello") = PStr cmd →
  popen P (PStr cmd) w = (Ok proc, w') →
  let answer := fst (App.run P request w) in
  (returncode proc = 0 → utf8_valid (proc_stdout proc) = true →
     ∃ out, answer = Ok (mkResponse 200 (Text out)) ∧ encode_utf8 out = proc_stdout proc)
  ∧ (returncode proc ≠ 0 → utf8_valid (proc_stderr proc) = true →
     ∃ err, answer = Ok (mkResponse 500 (Text err)) ∧ encode_utf8 err = proc_stderr proc)
  ∧ (returncode proc = 0 → utf8_valid (proc_stdout proc) = false →
     answer = Raise (Exn UnicodeDecodeError (codec_diag P (proc_stdout proc))))
  ∧ (returncode proc ≠ 0 → utf8_valid (proc_stderr proc) = false →
     answer = Raise (Exn UnicodeDecodeError (codec_diag P (proc_stderr proc))))
  ∧ (∀ r, answer = Ok r →
       (status r = 200 ↔ returncode proc = 0) ∧ (status r = 500 ↔ returncode proc ≠ 0))
  ∧ (cmd = "echo Hello" →
     proc = mkCompleted 0 (list_byte_of_string ("Hello" +:+ String LF EmptyString)) [] →
     answer = Ok (mkResponse 200 (Text ("Hello" +:+ String LF EmptyString))))
  ∧ (cmd = "exit 3" → returncode proc = 3 → proc_stderr proc = [] →
     answer = Ok (mkResponse 500 (Text EmptyString))).
Proof.
  intros Hj Hcmd Hproc answer.
  unfold answer. rewrite (run_unfold _ _ _ _ _ _ Hj Hcmd Hproc). cbn [fst].
  split; [|split; [|split; [|split; [|split; [|split]]]]].
  - intros -> Hv. rewrite (decode_valid _ Hv). eexists; split; [done|].
    apply list_byte_of_string_of_list_byte.
  - intros Hrc Hv. apply Z.eqb_neq in Hrc as ->. rewrite (decode_valid _ Hv).
    eexists; split; [done|]. apply list_byte_of_string_of_list_byte.
  - intros -> Hv. by rewrite (decode_invalid _ Hv).
  - intros Hrc Hv. apply Z.eqb_neq in Hrc as ->. by rewrite (decode_invalid _ Hv).
  - intros r H.
    destruct (Z.eqb_spec (returncode proc) 0) as [E|E]; cbn [negb] in H.
    + destruct (App.decode_utf8 P (proc_stdout proc)); [|done].
      injection H as <-. cbn [status]. split; split; intros; done.
    + destruct (App.decode_utf8 P (proc_stderr proc)); [|done].
      injection H as <-. cbn [status]. split; split; intros; done.
  - intros _ ->. reflexivity.
  - intros _ Hrc He. rewrite Hrc, He. reflexivity.
Qed.

Lemma universal_newlines_id (s : string) :
  has_char CR s = false → universal_newlines s = s.
Proof.
  induction s as [|c s IH]; [done|].
  change (has_char CR (String c s)) with (Ascii.eqb CR c || has_char CR s).
  intros H. apply orb_false_elim in H as [Hc Hs].
  cbn [universal_newlines]. rewrite (Ascii.eqb_sym c CR), Hc. by rewrite IH.
Qed.

Lemma read_file_unfold (request : Request) (w : World) :
  App.read_file P request w
  = (match App.open_bytes P (args_get (args request) "file" "README.md") w
           ≫= App.decode_utf8 P with
     | Ok s => Ok (mkResponse 200 (Text (universal_newlines s)))
     | Raise e => Ok (mkResponse 404 (Text (exn_str e)))
     end, w).
Proof.
  unfold App.read_file, try_except, App.read_text.
  unfold mbind at 1. unfold M_bind.
  destruct (App.open_bytes P _ w) as [bs|e]; [|done].
  cbn [mbind result_bind].
  by destruct (App.decode_utf8 P bs).
Qed.

(** C4, as the code has it: for every value of [file] (and for its
    default) the handler changes nothing and answers 200 or 404, never with
    a fault.  It answers 200 exactly for a path that can be read and holds
    well-formed UTF-8, and the body is then the text of that very file as
    text mode reads it: every CR LF and every lone CR is one line feed, so
    the body has the bytes of the file when the file holds no carriage
    return.  In every other case the fault of opening or decoding is caught
    and its text is the body, with status 404: the codec's text for bytes
    that are not UTF-8, the text of the operating system for a directory, a
    file that may not be read or a path at which nothing is (that text is
    not empty), and the text of [open] for a name with a NUL in it. *)
Theorem read_file_answers_or_reports (request : Request) (w : World) :
  let filename := args_get (args request) "file" "README.md" in
  let answer := fst (App.read_file P request w) in
  let reports := λ msg : string, answer = Ok (mkResponse 404 (Text msg)) in
  let serves := λ bs : list byte,
    if utf8_valid bs
    then answer = Ok (mkResponse 200 (Text (universal_newlines (string_of_list_byte bs))))
         ∧ (has_char CR (string_of_list_byte bs) = false →
            ∃ s, answer = Ok (mkResponse 200 (Text s)) ∧ encode_utf8 s = bs)
    else reports (codec_diag P bs) in
  snd (App.read_file P request w) = w
  ∧ (∃ r, answer = Ok r ∧ (status r = 200 ∨ status r = 404))
  ∧ (if has_char NUL filename then reports "embedded null byte"
     else
       match dbs w !! filename, files w !! filename with
       | Some db, _ => serves (db_image P db)
       | None, Some (FRegular bs) => serves bs
       | None, Some FDirectory =>
           reports ("[Errno 21] Is a directory: " +:+ py_repr P (PStr filename))
       | None, Some FDenied =>
           reports ("[Errno 13] Permission denied: " +:+ py_repr P (PStr filename))
       | None, None =>
           reports ("[Errno 2] No such file or directory: " +:+ py_repr P (PStr filename))
           ∧ "[Errno 2] No such file or directory: " +:+ py_repr P (PStr filename)
             ≠ EmptyString
       end).
Proof.
  intros filename answer reports serves.
  assert (∀ bs, App.open_bytes P filename w = Ok bs → serves bs) as Hserve.
  { intros bs Hbs. unfold serves, reports, answer. rewrite read_file_unfold. fold filename.
    rewrite Hbs. cbn [fst mbind result_bind]. unfold App.decode_utf8.
    destruct (utf8_valid bs); [|done]. split; [done|].
    intros Hcr. eexists. split; [done|].
    rewrite universal_newlines_id by done. apply list_byte_of_string_of_list_byte. }
  assert (∀ e, App.open_bytes P filename w = Raise e → reports (exn_str e)) as Hreport.
  { intros e He. unfold reports, answer. rewrite read_file_unfold. fold filename.
    by rewrite He. }
  split; [by rewrite read_file_unfold|]. split.
  - unfold answer. rewrite read_file_unfold. cbn [fst].
    destruct (App.open_bytes P _ w ≫= App.decode_utf8 P); eexists; split; eauto.
  - unfold App.open_bytes in Hserve, Hreport.
    destruct (has_char NUL filename); [by apply (Hreport _ eq_refl)|].
    destruct (dbs w !! filename) as [db|]; [by apply Hserve|].
    destruct (files w !! filename) as [[bs| |]|].
    + by apply Hserve.
    + by apply (Hreport _ eq_refl).
    + by apply (Hreport _ eq_refl).
    + split; [by apply (Hreport _ eq_refl) | done].
Qed.

(** C5, as the code has it: for every body that is well-formed UTF-8, the
    handler answers 200 with the JSON encoding of what the loader
    constructs when the loader returns and the encoder accepts the object;
    a fault of the loader leaves the handler, and so does the fault of the
    encoder on an object that has no JSON encoding.  The world is left as
    the loader leaves it. *)
Theorem load_config_encodes_or_faults (request : Request) (w : World) (doc : string) :
  App.decode_utf8 P (data request) = Ok doc →
  App.load_config P request w
  = match yaml_load P doc w with
    | (Ok cfg, w') =>
        match to_json cfg with
        | Some j => (Ok (mkResponse 200 (Json j)), w')
        | None => (Raise (Exn TypeError (encode_diag P cfg)), w')
        end
    | (Raise e, w') => (Raise e, w')
    end.
Proof.
  intros Hd. unfold App.load_config, lift, mbind, M_bind. rewrite Hd.
  destruct (yaml_load P doc w) as [[cfg|e] w']; [|done].
  unfold App.jsonify. by destruct (to_json cfg).
Qed.

(** C8, as the code has it, route by route: [GET /user] leaves the table
    [users] as it was (given an engine that writes nothing on a SELECT), and
    [GET /read] leaves the whole world as it was.  [POST /run] and
    [POST /config] add no access to the store of their own: the world after
    them is the world that the command of the request leaves when it is
    spawned, respectively that the loader leaves for the decoded body, and
    the world before when the handler does not get that far. *)
Theorem routes_touch_users_through_sinks_only (r : App.route) (request : Request) (w : World) :
  select_readonly_law P →
  let w' := snd (App.view P r request w) in
  match r with
  | App.RUser => users_table w' = users_table w
  | App.RRead => w' = w
  | App.RRun =>
      match json_body request with
      | Ok (PDict items) => w' = snd (popen P (items_get items "cmd" (PStr "echo Hello")) w)
      | _ => w' = w
      end
  | App.RConfig =>
      match App.decode_utf8 P (data request) with
      | Ok doc => w' = snd (yaml_load P doc w)
      | Raise _ => w' = w
      end
  end.
Proof.
  intros Hro w'. unfold w'. destruct r; cbn [App.view].
  - by apply get_user_users_table.
  - unfold App.run, lift, mbind, M_bind.
    destruct (json_body request) as [j|e]; [|done].
    destruct j; cbn [App.method_get raise mret M_ret]; try done.
    destruct (popen P _ w) as [[proc|e] w1]; [|done]. cbn [snd].
    destruct (negb (returncode proc =? 0));
      [destruct (App.decode_utf8 P (proc_stderr proc))
      |destruct (App.decode_utf8 P (proc_stdout proc))]; reflexivity.
  - by rewrite read_file_unfold.
  - unfold App.load_config, lift, mbind, M_bind.
    destruct (App.decode_utf8 P (data request)) as [doc|e]; [|done].
    destruct (yaml_load P doc w) as [[cfg|e] w1]; [|done].
    unfold App.jsonify. by destruct (to_json cfg).
Qed.

End SinkFacts.

(** ** The program on the reference platform *)


(** C2 on [echo Hello], the default command. *)
Lemma run_status_follows_returncode_witness :
  fst (App.run Ref.platform (json_request (PDict [])) empty_world)
  = Ok (mkResponse 200 (Text ("Hello" +:+ String LF EmptyString))).
Proof.
  destruct (run_status_follows_returncode Ref.platform (json_request (PDict []))
              empty_world empty_world [] "echo Hello"
              (mkCompleted 0 (list_byte_of_string ("Hello" +:+ String LF EmptyString)) [])
              eq_refl eq_refl eq_refl) as (_ & _ & _ & _ & _ & Hecho & _).
  exact (Hecho eq_refl eq_refl).
Defined.

(** C2 fails as stated: [cat blob.bin] exits with code 0 and its output is
    the byte [0xff]; the handler does not answer 200 with that byte, it
    raises. *)
Lemma run_raises_on_binary_output :
  let request := json_request (PDict [(PStr "cmd", PStr "cat blob.bin")]) in
  popen Ref.platform (PStr "cat blob.bin") binary_world
  = (Ok (mkCompleted 0 [xff] []), binary_world)
  ∧ App.run Ref.platform request binary_world
    = (Raise (Exn UnicodeDecodeError
                "'utf-8' codec can't decode byte 0xff in position 0: invalid start byte"),
       binary_world).
Proof. split; vm_compute; reflexivity. Qed.

(** [exit 3] on the reference shell: status 500, empty body. *)
Example run_exit_3 :
  fst (App.run Ref.platform (json_request (PDict [(PStr "cmd", PStr "exit 3")])) empty_world)
  = Ok (mkResponse 500 (Text EmptyString)).
Proof. vm_compute. reflexivity. Qed.


Example get_user_id_1_exactly :
  fst (App.get_user Ref.platform (query_request [("id", "1")]) seeded_world)
  = Ok (mkResponse 200 (Json (JObj [("rows", JArr [JArr [JStr "1"; JStr "alice"]])]))).
Proof. vm_compute. reflexivity. Qed.

(** C5 on the document [42]. *)
Lemma load_config_encodes_or_faults_witness :
  App.load_config Ref.platform (raw_request (list_byte_of_string "42")) empty_world
  = (Ok (mkResponse 200 (Json (JInt 42))), empty_world).
Proof.
  exact (load_config_encodes_or_faults Ref.platform
           (raw_request (list_byte_of_string "42")) empty_world "42" eq_refl).
Defined.

(** C5 fails as stated: the document [!!set {}] deserializes, to the empty
    set, and the handler does not answer 200: the set has no JSON encoding
    and the fault of the encoder leaves the handler. *)
Lemma load_config_raises_on_set :
  let request := raw_request (list_byte_of_string "!!set {}") in
  App.decode_utf8 Ref.platform (data request) = Ok "!!set {}"
  ∧ yaml_load Ref.platform "!!set {}" empty_world = (Ok (PSet []), empty_world)
  ∧ App.load_config Ref.platform request empty_world
    = (Raise (Exn TypeError "Object of type set is not JSON serializable"), empty_world).
Proof. repeat split; vm_compute; reflexivity. Qed.

(** C6 from nothing. *)
Lemma bootstrap_seeds_absent_store_only_witness :
  dbs (snd (App.bootstrap Ref.platform empty_world)) !! App.DB_PATH = Some seeded_db
  ∧ App.bootstrap Ref.platform seeded_world = (Ok (), seeded_world).
Proof.
  destruct (bootstrap_seeds_absent_store_only Ref.platform empty_world
              ref_create_law ref_insert_law) as [Habsent _].
  destruct (Habsent eq_refl eq_refl) as (_ & Hdbs & _ & _ & _ & Hagain).
  split.
  - rewrite Hdbs. reflexivity.
  - destruct (bootstrap_seeds_absent_store_only Ref.platform seeded_world
                ref_create_law ref_insert_law) as [_ Hpresent].
    apply Hpresent. left. by eexists.
Defined.

(** C8 on a request for the first user. *)
Lemma routes_touch_users_through_sinks_only_witness :
  users_table (snd (App.get_user Ref.platform (query_request [("id", "1")]) seeded_world))
  = users_table seeded_world.
Proof.
  exact (routes_touch_users_through_sinks_only Ref.platform App.RUser
           (query_request [("id", "1")]) seeded_world ref_select_readonly_law).
Defined.

(** C8 fails as stated: [POST /run] with the command [rm test.db] answers
    200 and the user records are gone; [POST /config] with a document that
    calls [os.remove] does the same. *)
Lemma run_rm_destroys_users :
  let request := json_request (PDict [(PStr "cmd", PStr "rm test.db")]) in
  let config := raw_request (list_byte_of_string "!!python/object/apply:os.remove [test.db]") in
  users_table seeded_world = Some (mkTable users_schema seed_rows)
  ∧ fst (App.run Ref.platform request seeded_world) = Ok (mkResponse 200 (Text EmptyString))
  ∧ users_table (snd (App.run Ref.platform request seeded_world)) = None
  ∧ fst (App.load_config Ref.platform config seeded_world) = Ok (mkResponse 200 (Json JNull))
  ∧ users_table (snd (App.load_config Ref.platform config seeded_world)) = None.
Proof. repeat split; vm_compute; reflexivity. Qed.

(** C7 on the path of a fault: on an empty world the store is created
    without the table, the engine raises, and the connection is closed. *)
Example get_user_fault_closes :
  App.get_user Ref.platform (query_request [("id", "1")]) empty_world
  = (Raise (Exn OperationalError "no such table: users"),
     mkWorld {[App.DB_PATH := ∅]} [CClosed] ∅ []
             ["SELECT id, username FROM users WHERE id = '1'"]).
Proof. vm_compute. reflexivity. Qed.

(** C10 on the store the bootstrap leaves. *)
Lemma get_user_without_id_returns_no_rows_witness :
  executed (snd (App.get_user Ref.platform (query_request []) seeded_world))
  = ["SELECT id, username FROM users WHERE id = ''"]
  ∧ fst (App.get_user Ref.platform (query_request []) seeded_world)
    = Ok (mkResponse 200 (Json (JObj [("rows", JArr [])]))).
Proof.
  apply (get_user_without_id_returns_no_rows Ref.platform (query_request []) seeded_world
           seeded_db ref_select_law); [constructor | reflexivity | reflexivity].
Defined.

(** C4 fails as stated: the file [notes.txt] holds a carriage return, and
    the 200 response has not the contents of the file: the CR LF has become
    one line feed. *)
Lemma read_file_translates_carriage_returns :
  let request := query_request [("file", "notes.txt")] in
  let text := String "a" (String LF (String "b" (String LF EmptyString))) in
  files notes_world !! "notes.txt" = Some (FRegular [x61; x0d; x0a; x62; x0a])
  ∧ App.read_file Ref.platform request notes_world
    = (Ok (mkResponse 200 (Text text)), notes_world)
  ∧ encode_utf8 text = [x61; x0a; x62; x0a]
  ∧ encode_utf8 text ≠ [x61; x0d; x0a; x62; x0a].
Proof.
  split; [|split; [|split]]; try (vm_compute; reflexivity).
  intros H. vm_compute in H. discriminate H.
Qed.

(** Where the path of the store is a directory, [get_db] raises: the
    handler is left before any statement is executed. *)
Example get_user_store_is_directory :
  App.get_user Ref.platform (query_request [("id", "1")]) directory_world
  = (Raise App.cannot_open, directory_world).
Proof. vm_compute. reflexivity. Qed.

(** C4 on a name at which there is nothing. *)
Example read_file_missing :
  App.read_file Ref.platform (query_request [("file", "does-not-exist.txt")]) empty_world
  = (Ok (mkResponse 404 (Text "[Errno 2] No such file or directory: 'does-not-exist.txt'")),
     empty_world).
Proof. vm_compute. reflexivity. Qed.

(** ** Checks of the codec model and of the URL map *)

(** ASCII is well-formed UTF-8. *)
Lemma ascii_is_utf8 (bs : list byte) :
  Forall (λ b, in_range 0 127 b = true) bs → utf8_valid bs = true.
Proof.
  unfold utf8_valid. induction 1 as [|b bs Hb _ IH]; [done|].
  cbn [utf8_scan]. by rewrite Hb.
Qed.

(** Decoding gives back the bytes: what the client receives for a decoded
    stream is the stream. *)
Lemma decode_encode (P : Platform) (bs : list byte) (s : string) :
  App.decode_utf8 P bs = Ok s → encode_utf8 s = bs.
Proof.
  unfold App.decode_utf8. destruct (utf8_valid bs); [|done].
  intros [= <-]. apply list_byte_of_string_of_list_byte.
Qed.

(** U+00E9, U+20AC and U+1F600 in UTF-8. *)
Example utf8_accepts_multibyte :
  utf8_valid [xc3; xa9; xe2; x82; xac; xf0; x9f; x98; x80] = true.
Proof. reflexivity. Qed.

(** A lone continuation byte, an overlong form, a surrogate, a code point
    above U+10FFFF and a truncated sequence are refused. *)
Example utf8_refuses_ill_formed :
  utf8_valid [x80] = false
  ∧ utf8_valid [xc0; x80] = false
  ∧ utf8_valid [xed; xa0; x80] = false
  ∧ utf8_valid [xf4; x90; x80; x80] = false
  ∧ utf8_valid [xe2; x82] = false.
Proof. repeat split; reflexivity. Qed.

Example universal_newlines_crlf :
  universal_newlines (String "a" (String CR (String LF (String "b" (String CR EmptyString)))))
  = String "a" (String LF (String "b" (String LF EmptyString))).
Proof. reflexivity. Qed.

Example url_map_routes :
  App.url_map "GET" "/user" = Some App.RUser
  ∧ App.url_map "POST" "/run" = Some App.RRun
  ∧ App.url_map "GET" "/read" = Some App.RRead
  ∧ App.url_map "POST" "/config" = Some App.RConfig
  ∧ App.url_map "POST" "/user" = None.
Proof. repeat split; reflexivity. Qed.

(** ** Further properties of the script *)

Section ScriptMore.

Context (P : Platform).

(** The run of [process_data] in all cases: the loop prints the lines of
    the indices that both lists have, and faults if [list_a] has more. *)
Lemma process_data_run (list_a list_b : list pyobj) (w : World) :
  TestCode.process_data P list_a list_b w
  = (if (length list_a <=? length list_b)%nat then Ok ()
     else Raise (Exn IndexError "list index out of range"),
     set_stdout (stdout w ++ map (line_at P list_a list_b)
                               (seq 0 (length list_a `min` length list_b))) w).
Proof.
  unfold TestCode.process_data, TestCode.range.
  destruct (Nat.leb_spec (length list_a) (length list_b)) as [Hle|Hlt].
  - rewrite Nat.min_l by done. by rewrite loop_prints by lia.
  - rewrite Nat.min_r by lia.
    replace (length list_a) with (length list_b + S (length list_a - S (length list_b)))%nat
      at 1 by lia.
    rewrite seq_app, for_each_app, loop_prints by lia.
    simpl. unfold mbind, M_bind, TestCode.list_index at 1 2.
    destruct (lookup_lt_is_Some_2 list_a (length list_b)) as [a Ha]; [lia|].
    rewrite Ha. simpl. rewrite (lookup_ge_None_2 list_b (length list_b)) by lia.
    reflexivity.
Qed.

Lemma line_at_surplus (list_a list_b surplus : list pyobj) (i : nat) :
  (i < length list_b)%nat →
  line_at P list_a (list_b ++ surplus) i = line_at P list_a list_b i.
Proof. intros Hi. unfold line_at. by rewrite lookup_app_l. Qed.

(** X1: when [list_a] is not longer than [list_b], [process_data] returns
    without fault after one line for each index of [list_a], each made of
    the index and the two items at it; the items of [list_b] beyond the
    length of [list_a] are never looked at: appending to [list_b] changes
    nothing. *)
Theorem process_data_completes (list_a list_b : list pyobj) (w : World) :
  (length list_a ≤ length list_b)%nat →
  let lines := map (line_at P list_a list_b) (seq 0 (length list_a)) in
  TestCode.process_data P list_a list_b w = (Ok (), set_stdout (stdout w ++ lines) w)
  ∧ (∀ (i : nat) (a b : pyobj),
       list_a !! i = Some a → list_b !! i = Some b →
       lines !! i = Some ("Index " +:+ pretty i +:+ ": " +:+ TestCode.py_str P a
                          +:+ " - " +:+ TestCode.py_str P b))
  ∧ (∀ surplus : list pyobj,
       TestCode.process_data P list_a (list_b ++ surplus) w
       = TestCode.process_data P list_a list_b w).
Proof.
  intros Hle lines. split; [|split].
  - rewrite process_data_run. apply Nat.leb_le in Hle as Hle'. rewrite Hle'.
    by rewrite Nat.min_l by done.
  - intros i a b Ha Hb. unfold lines.
    assert (i < length list_a)%nat as Hi by (eapply lookup_lt_Some; eauto).
    rewrite list_lookup_fmap, lookup_seq_lt by done. simpl.
    unfold line_at. by rewrite Ha, Hb.
  - intros surplus. rewrite !process_data_run, length_app.
    apply Nat.leb_le in Hle as Hle'. rewrite Hle'.
    assert ((length list_a <=? length list_b + length surplus)%nat = true) as ->
      by (apply Nat.leb_le; lia).
    rewrite !Nat.min_l by lia. do 3 f_equal.
    apply map_ext_in. intros i Hi. apply in_seq in Hi.
    apply line_at_surplus. lia.
Qed.


End ScriptMore.

(** X1 on two items against three. *)
Lemma process_data_completes_witness :
  TestCode.process_data Ref.platform [PInt 1; PStr "b"] [PStr "x"; PNone; PBool true] empty_world
  = (Ok (), set_stdout ["Index 0: 1 - x"; "Index 1: b - None"] empty_world).
Proof.
  assert (length [PInt 1; PStr "b"] ≤ length [PStr "x"; PNone; PBool true])%nat as Hle
    by (simpl; lia).
  exact (proj1 (process_data_completes Ref.platform [PInt 1; PStr "b"]
                  [PStr "x"; PNone; PBool true] empty_world Hle)).
Defined.

(** ** Further properties of [get_db], [get_user] and the bootstrap *)

Section UserMore.

Context (P : Platform).



(** X4: after [GET /user] the path of the store exists, whatever the
    outcome: where nothing was at the path the handler leaves a store
    behind (the empty one that [connect] created, as the engine then leaves
    it), and where the path did not open it was there before.  So the
    bootstrap, run afterwards, finds the path and seeds nothing.  The
    handler touches no other store, no other file and not the standard
    output. *)
Theorem get_user_creates_store (request : Request) (w : World) :
  let w' := snd (App.get_user P request w) in
  (is_Some (dbs w' !! App.DB_PATH) ∨ is_Some (files w' !! App.DB_PATH))
  ∧ (dbs w !! App.DB_PATH = None → files w !! App.DB_PATH = None →
     is_Some (dbs w' !! App.DB_PATH))
  ∧ (∀ p, p ≠ App.DB_PATH → dbs w' !! p = dbs w !! p)
  ∧ files w' = files w
  ∧ stdout w' = stdout w
  ∧ App.bootstrap P w' = (Ok (), w').
Proof.
  intros w'.
  assert (files w' = files w) as Hfiles.
  { unfold w'. rewrite get_user_run.
    destruct (App.open_store _ w) as [d0|e0]; [|done].
    destruct (App.working_copy _ _ _) as [cur|e]; [|done].
    by destruct (sql_run P _ cur) as [[rows d']|e]. }
  assert (∀ d0, App.open_store App.DB_PATH w = Ok d0 →
            (is_Some (d0 !! App.DB_PATH) ∨ is_Some (files w !! App.DB_PATH))
            ∧ (dbs w !! App.DB_PATH = None → files w !! App.DB_PATH = None →
               is_Some (d0 !! App.DB_PATH))
            ∧ ∀ p, p ≠ App.DB_PATH → d0 !! p = dbs w !! p) as Hopen.
  { intros d0. unfold App.open_store.
    destruct (dbs w !! App.DB_PATH) as [db|] eqn:Hdb.
    - intros [= <-]. rewrite Hdb. repeat split; eauto; done.
    - destruct (files w !! App.DB_PATH) as [[bs| |]|] eqn:Hf; intros [= <-].
      + repeat split; eauto; done.
      + rewrite lookup_insert_eq. repeat split; eauto.
        intros p Hp. by rewrite lookup_insert_ne. }
  assert ((is_Some (dbs w' !! App.DB_PATH) ∨ is_Some (files w' !! App.DB_PATH))
          ∧ (dbs w !! App.DB_PATH = None → files w !! App.DB_PATH = None →
             is_Some (dbs w' !! App.DB_PATH))
          ∧ ∀ p, p ≠ App.DB_PATH → dbs w' !! p = dbs w !! p) as (Hex & Habs & Hother).
  { rewrite Hfiles. unfold w'. rewrite get_user_run.
    destruct (App.open_store App.DB_PATH w) as [d0|e0] eqn:Ho.
    - destruct (Hopen d0 eq_refl) as (H1 & H2 & H3).
      destruct (App.working_copy _ _ _) as [cur|e]; [|by cbn [snd dbs]].
      destruct (sql_run P _ cur) as [[rows d']|e]; [|by cbn [snd dbs]].
      cbn [snd dbs]. rewrite lookup_insert_eq. repeat split; eauto.
      intros p Hp. rewrite lookup_insert_ne by done. by apply H3.
    - cbn [snd]. unfold App.open_store in Ho.
      destruct (dbs w !! App.DB_PATH) as [db|]; [done|].
      destruct (files w !! App.DB_PATH) as [[bs| |]|]; try done;
        repeat split; eauto; done. }
  repeat split; try done.
  - unfold w'. rewrite get_user_run.
    destruct (App.open_store _ w) as [d0|e0]; [|done].
    destruct (App.working_copy _ _ _) as [cur|e]; [|done].
    by destruct (sql_run P _ cur) as [[rows d']|e].
  - by apply bootstrap_present.
Qed.


(** X6: a bootstrap whose CREATE TABLE faults is never repaired: the fault
    leaves the block, the store file that [connect] created stays behind,
    empty, the connection stays open (the block has no [finally]), and a
    second run of the bootstrap finds the file and does nothing. *)
Theorem bootstrap_create_fault_is_final (w : World) (e : exn) :
  dbs w !! App.DB_PATH = None → files w !! App.DB_PATH = None →
  sql_run P "CREATE TABLE users (id TEXT, username TEXT)" ∅ = Raise e →
  let w' := snd (App.bootstrap P w) in
  fst (App.bootstrap P w) = Raise e
  ∧ dbs w' = <[App.DB_PATH := ∅]> (dbs w)
  ∧ users_table w' = None
  ∧ conns w' = (conns w ++ [COpen App.DB_PATH None])%list
  ∧ App.bootstrap P w' = (Ok (), w').
Proof.
  intros Hdb Hfile Hrun w'.
  assert (App.bootstrap P w
          = (Raise e, mkWorld (<[App.DB_PATH := ∅]> (dbs w))
                              (conns w ++ [COpen App.DB_PATH None]) (files w) (stdout w)
                              (executed w ++ ["CREATE TABLE users (id TEXT, username TEXT)"])))
    as Hboot.
  { unfold App.bootstrap, App.path_exists, mbind, M_bind.
    rewrite Hdb, Hfile.
    rewrite !bool_decide_eq_false_2 by (intros [? ?]; done).
    cbn [orb negb].
    rewrite (connect_absent _ _ Hdb Hfile).
    erewrite execute_raises; [reflexivity | | | exact Hrun].
    - cbn [conns]. by rewrite lookup_app_r, Nat.sub_diag by lia.
    - cbn [dbs]. apply lookup_insert_eq. }
  unfold w'. rewrite Hboot. cbn [fst snd dbs conns].
  repeat split.
  - unfold users_table. cbn [dbs]. by rewrite lookup_insert_eq.
  - apply bootstrap_present. left. cbn [dbs]. rewrite lookup_insert_eq. by eexists.
Qed.

(** X7: a bootstrap whose INSERT faults leaves the table without rows for
    good: the CREATE TABLE ran in autocommit mode, so the store holds an
    empty table [users]; the fault leaves the block with the connection
    open; and a second run of the bootstrap finds the file and seeds
    nothing. *)
Theorem bootstrap_insert_fault_is_final (w : World) (e : exn) :
  create_law P →
  dbs w !! App.DB_PATH = None → files w !! App.DB_PATH = None →
  sql_run P "INSERT INTO users VALUES ('1', 'alice'), ('2', 'bob')"
          (<["users" := mkTable users_schema []]> ∅) = Raise e →
  let w' := snd (App.bootstrap P w) in
  fst (App.bootstrap P w) = Raise e
  ∧ users_table w' = Some (mkTable users_schema [])
  ∧ conns w' = (conns w ++ [COpen App.DB_PATH None])%list
  ∧ App.bootstrap P w' = (Ok (), w').
Proof.
  intros Hcreate Hdb Hfile Hrun w'.
  assert (App.bootstrap P w
          = (Raise e, mkWorld (<[App.DB_PATH := <["users" := mkTable users_schema []]> ∅]>
                                 (<[App.DB_PATH := ∅]> (dbs w)))
                              (conns w ++ [COpen App.DB_PATH None]) (files w) (stdout w)
                              ((executed w ++ ["CREATE TABLE users (id TEXT, username TEXT)"])
                               ++ ["INSERT INTO users VALUES ('1', 'alice'), ('2', 'bob')"])))
    as Hboot.
  { unfold App.bootstrap, App.path_exists, mbind, M_bind.
    rewrite Hdb, Hfile.
    rewrite !bool_decide_eq_false_2 by (intros [? ?]; done).
    cbn [orb negb].
    rewrite (connect_absent _ _ Hdb Hfile).
    assert ((conns w ++ [COpen App.DB_PATH None])%list !! length (conns w)
            = Some (COpen App.DB_PATH None)) as Hc
      by (by rewrite lookup_app_r, Nat.sub_diag by lia).
    erewrite execute_autocommit;
      [| exact Hc | cbn [dbs]; apply lookup_insert_eq | by vm_compute | by apply Hcreate].
    erewrite execute_raises; [reflexivity | exact Hc | | exact Hrun].
    cbn [dbs]. apply lookup_insert_eq. }
  unfold w'. rewrite Hboot. cbn [fst snd dbs conns].
  repeat split.
  - unfold users_table. cbn [dbs]. rewrite lookup_insert_eq. reflexivity.
  - apply bootstrap_present. left. cbn [dbs]. rewrite lookup_insert_eq. by eexists.
Qed.

(** X8: bootstrap and handler together: on the store that the bootstrap
    leaves where there was none, [GET /user] with an id that holds neither
    a quote nor a NUL character answers 200 with the row of alice for id 1, the row of bob for id 2 and
    no row for any other id. *)
Theorem bootstrap_then_get_user (request : Request) (w : World) (v : string) :
  create_law P → insert_law P → select_law P →
  dbs w !! App.DB_PATH = None → files w !! App.DB_PATH = None →
  sql_plain v = true →
  args_get (args request) "id" "" = v →
  fst (App.get_user P request (snd (App.bootstrap P w)))
  = Ok (mkResponse 200 (Json (JObj [("rows", JArr (
          if String.eqb v "1" then [JArr [JStr "1"; JStr "alice"]]
          else if String.eqb v "2" then [JArr [JStr "2"; JStr "bob"]]
          else []))]))).
Proof.
  intros Hcreate Hinsert Hselect Hdb Hfile Hv Hid.
  rewrite (bootstrap_absent P w Hcreate Hinsert Hdb Hfile). cbn [snd].
  rewrite get_user_unfold by (left; cbn [dbs]; rewrite lookup_insert_eq; by eexists).
  cbn [dbs]. rewrite lookup_insert_eq, Hid.
  cbn [default from_option id].
  assert (Forall (λ r : list sqlval, ∃ a b, r = [VText a; VText b]) seed_rows) as Hseed.
  { unfold seed_rows. repeat constructor; by do 2 eexists. }
  pose proof (Hselect v seeded_db (mkTable users_schema seed_rows) Hv eq_refl eq_refl Hseed)
    as Hq.
  change ("SELECT id, username FROM users WHERE id = '" +:+ v +:+ "'")
    with (App.user_query v) in Hq.
  rewrite Hq. cbn [t_rows fst]. unfold seed_rows.
  rewrite !filter_cons, filter_nil.
  change ([VText "1"; VText "alice"] !! 0%nat) with (Some (VText "1")).
  change ([VText "2"; VText "bob"] !! 0%nat) with (Some (VText "2")).
  destruct (String.eqb_spec v "1") as [->|H1].
  - rewrite decide_True by done. rewrite decide_False by done. reflexivity.
  - rewrite decide_False by congruence.
    destruct (String.eqb_spec v "2") as [->|H2].
    + rewrite decide_True by done. reflexivity.
    + rewrite decide_False by congruence. reflexivity.
Qed.

End UserMore.

(** ** Further properties of [run], [read_file] and [load_config] *)

Section SinkMore.

Context (P : Platform).

Lemma items_get_absent (items : list (pyobj * pyobj)) (key : string) (default : pyobj) :
  Forall (λ kv, kv.1 ≠ PStr key) items → items_get items key default = default.
Proof.
  induction 1 as [|[k v] items Hk _ IH]; [done|].
  cbn [items_get]. destruct k; try exact IH.
  destruct (String.eqb_spec s key) as [->|]; [done | exact IH].
Qed.

(** X9: the three ways [run] ends before it has a response.  When
    [request.json] faults, the fault leaves the handler; when the body is
    JSON but not an object, the call of [get] raises [AttributeError]; in
    both cases no command is spawned and nothing has changed.  When the
    spawning itself faults, that fault leaves the handler. *)
Theorem run_faults_before_response (request : Request) (w : World) :
  (∀ e, json_body request = Raise e → App.run P request w = (Raise e, w))
  ∧ (∀ o, json_body request = Ok o → (∀ items, o ≠ PDict items) →
       App.run P request w
       = (Raise (Exn AttributeError
                   ("'" +:+ py_typename o +:+ "' object has no attribute 'get'")), w))
  ∧ (∀ items e w', json_body request = Ok (PDict items) →
       popen P (items_get items "cmd" (PStr "echo Hello")) w = (Raise e, w') →
       App.run P request w = (Raise e, w')).
Proof.
  split; [|split].
  - intros e He. unfold App.run, lift, mbind, M_bind. by rewrite He.
  - intros o Ho Hnot. unfold App.run, lift, mbind, M_bind. rewrite Ho.
    destruct o; try reflexivity. by destruct (Hnot items).
  - intros items e w' Hj Hp. unfold App.run, lift, mbind, M_bind. rewrite Hj.
    cbn [App.method_get mret M_ret]. by rewrite Hp.
Qed.

(** X10: a JSON object without the key [cmd] is handled exactly as the
    object [{"cmd": "echo Hello"}], whatever else it holds. *)
Theorem run_defaults_to_echo_hello (request : Request) (w : World)
    (items : list (pyobj * pyobj)) :
  json_body request = Ok (PDict items) →
  Forall (λ kv, kv.1 ≠ PStr "cmd") items →
  App.run P request w
  = App.run P (json_request (PDict [(PStr "cmd", PStr "echo Hello")])) w.
Proof.
  intros Hj Hno. unfold App.run, lift, mbind, M_bind. rewrite Hj.
  cbn [json_body json_request App.method_get mret M_ret].
  rewrite (items_get_absent _ _ _ Hno). reflexivity.
Qed.

(** X11: every response of [run] is text with status 200 or 500: the
    handler has no other status and never answers JSON. *)
Theorem run_answers_text_200_or_500 (request : Request) (w : World) (r : Response) :
  fst (App.run P request w) = Ok r →
  (status r = 200 ∨ status r = 500) ∧ ∃ s, body r = Text s.
Proof.
  unfold App.run, lift, mbind, M_bind.
  destruct (json_body request) as [j|e]; [|done].
  destruct j; cbn [App.method_get raise mret M_ret]; try done.
  destruct (popen P _ w) as [[proc|e] w1]; [|done].
  destruct (negb (returncode proc =? 0));
    [destruct (App.decode_utf8 P (proc_stderr proc))
    |destruct (App.decode_utf8 P (proc_stdout proc))];
    cbn [fst]; intros [= <-]; cbn [status body]; eauto.
Qed.

Lemma universal_newlines_no_cr_step (s : string) :
  has_char CR (universal_newlines s) = false
  ∧ ∀ c, has_char CR (universal_newlines (String c s)) = false.
Proof.
  induction s as [|d s [IH1 IH2]].
  - split; [done|]. intros c. cbn [universal_newlines].
    destruct (Ascii.eqb_spec c CR) as [->|Hc]; [done|].
    change (has_char CR (String c EmptyString)) with (Ascii.eqb CR c || false).
    rewrite orb_false_r. apply Ascii.eqb_neq. congruence.
  - split; [apply IH2|]. intros c.
    change (universal_newlines (String c (String d s)))
      with (if Ascii.eqb c CR
            then if Ascii.eqb d LF then String LF (universal_newlines s)
                 else String LF (universal_newlines (String d s))
            else String c (universal_newlines (String d s))).
    destruct (Ascii.eqb_spec c CR) as [->|Hc].
    + destruct (Ascii.eqb d LF).
      * change (has_char CR (String LF (universal_newlines s)))
          with (Ascii.eqb CR LF || has_char CR (universal_newlines s)).
        by rewrite IH1.
      * change (has_char CR (String LF (universal_newlines (String d s))))
          with (Ascii.eqb CR LF || has_char CR (universal_newlines (String d s))).
        by rewrite IH2.
    + change (has_char CR (String c (universal_newlines (String d s))))
        with (Ascii.eqb CR c || has_char CR (universal_newlines (String d s))).
      rewrite IH2, orb_false_r. apply Ascii.eqb_neq. congruence.
Qed.

(** X12: a readable file that is well-formed UTF-8 and holds no carriage
    return is served as it is on disk: status 200, and the body is sent as
    the very bytes of the file. *)
Theorem read_file_serves_file_bytes (request : Request) (w : World) (bs : list byte) :
  let filename := args_get (args request) "file" "README.md" in
  has_char NUL filename = false →
  dbs w !! filename = None →
  files w !! filename = Some (FRegular bs) →
  utf8_valid bs = true →
  has_char CR (string_of_list_byte bs) = false →
  ∃ s, App.read_file P request w = (Ok (mkResponse 200 (Text s)), w)
       ∧ encode_utf8 s = bs.
Proof.
  intros filename Hnul Hdb Hfile Hvalid Hcr.
  exists (string_of_list_byte bs). split.
  - rewrite read_file_unfold. fold filename.
    unfold App.open_bytes. rewrite Hnul, Hdb, Hfile.
    cbn [mbind result_bind]. unfold App.decode_utf8. rewrite Hvalid.
    by rewrite universal_newlines_id.
  - apply list_byte_of_string_of_list_byte.
Qed.

(** X13: the text of a 200 response of [read_file] holds no carriage
    return: text mode has turned every CR LF and every lone CR of the file
    into one line feed. *)
Theorem read_file_body_has_no_carriage_return (request : Request) (w : World)
    (r : Response) (s : string) :
  fst (App.read_file P request w) = Ok r →
  status r = 200 →
  body r = Text s →
  has_char CR s = false.
Proof.
  rewrite read_file_unfold. cbn [fst].
  destruct (App.open_bytes P _ w ≫= App.decode_utf8 P) as [t|e];
    intros [= <-]; cbn [status body]; [|done].
  intros _ [= <-]. apply universal_newlines_no_cr_step.
Qed.

(** X14: a request without the parameter [file] is handled exactly as a
    request for [README.md]. *)
Theorem read_file_defaults_to_readme (request : Request) (w : World) :
  Forall (λ kv, kv.1 ≠ "file") (args request) →
  App.read_file P request w
  = App.read_file P (query_request [("file", "README.md")]) w.
Proof.
  intros Hno. rewrite !read_file_unfold.
  by rewrite (args_get_absent _ _ _ Hno).
Qed.

Lemma to_json_plain (o : pyobj) : plain o = true → is_Some (to_json o).
Proof.
  revert o. fix IH 1. intros o.
  destruct o as [ | b | n | r | s | b | l | l | items | l | t v | t ];
    cbn [plain to_json]; intros H; try done; try by eexists.
  - assert (is_Some (mapM to_json l)) as [js ->]; [|by eexists].
    induction l as [|x l IHl]; [by eexists|].
    cbn [forallb] in H. apply andb_prop in H as [Hx Hl].
    destruct (IH x Hx) as [j Hj]. destruct (IHl Hl) as [js Hjs].
    exists (j :: js). cbn [mapM]. rewrite Hj. cbn. by rewrite Hjs.
  - assert (is_Some (mapM to_json l)) as [js ->]; [|by eexists].
    induction l as [|x l IHl]; [by eexists|].
    cbn [forallb] in H. apply andb_prop in H as [Hx Hl].
    destruct (IH x Hx) as [j Hj]. destruct (IHl Hl) as [js Hjs].
    exists (j :: js). cbn [mapM]. rewrite Hj. cbn. by rewrite Hjs.
  - assert (keys_sortable (map fst items) = true) as ->.
    { assert (forallb key_is_str (map fst items) = true) as Hk.
      { clear IH. induction items as [|[k v] items IHi]; [done|].
        cbn [forallb map fst] in *. apply andb_prop in H as [Hkv Hi].
        apply andb_prop in Hkv as [Hk _]. by rewrite Hk, IHi. }
      unfold keys_sortable. destruct (map fst items) as [|? [|? ?]]; [done..|].
      by rewrite Hk. }
    assert (is_Some (mapM (λ kv, k ← key_to_string (fst kv);
                                 v ← to_json (snd kv); Some (k, v)) items))
      as [ms ->]; [|by eexists].
    induction items as [|[k v] items IHi]; [by eexists|].
    cbn [forallb fst snd] in H. apply andb_prop in H as [Hkv Hi].
    apply andb_prop in Hkv as [Hk Hv].
    destruct (IH v Hv) as [j Hj]. destruct (IHi Hi) as [ms Hms].
    destruct k; try done.
    exists ((s, j) :: ms). cbn [mapM fst snd key_to_string]. cbn. rewrite Hj. cbn.
    by rewrite Hms.
Qed.

(** X15: [load_config] reflects plain data: whenever the loader returns a
    value built from [None], booleans, numbers, strings, lists, tuples and
    dicts with string keys, the answer is 200 with its JSON encoding, in
    the world the loader leaves. *)
Theorem load_config_reflects_plain_data (request : Request) (w w' : World)
    (doc : string) (cfg : pyobj) :
  App.decode_utf8 P (data request) = Ok doc →
  yaml_load P doc w = (Ok cfg, w') →
  plain cfg = true →
  ∃ j, App.load_config P request w = (Ok (mkResponse 200 (Json j)), w')
       ∧ to_json cfg = Some j.
Proof.
  intros Hd Hload Hplain.
  destruct (to_json_plain cfg Hplain) as [j Hj]. exists j. split; [|done].
  unfold App.load_config, lift, mbind, M_bind. rewrite Hd, Hload.
  unfold App.jsonify. by rewrite Hj.
Qed.

End SinkMore.

(** ** The further properties on concrete runs *)

Lemma dml_locked_create_law : create_law (with_engine dml_locked_run).
Proof. intros db H. exact (ref_create_law db H). Qed.


(** X6 on a store that another writer has locked. *)
Lemma bootstrap_create_fault_is_final_witness :
  fst (App.bootstrap (with_engine locked_run) empty_world) = Raise locked
  ∧ users_table (snd (App.bootstrap (with_engine locked_run) empty_world)) = None.
Proof.
  destruct (bootstrap_create_fault_is_final (with_engine locked_run) empty_world locked
              eq_refl eq_refl eq_refl) as (Hfault & _ & Husers & _).
  split; [exact Hfault | exact Husers].
Defined.

(** X7 on a store that is locked when the INSERT begins its transaction. *)
Lemma bootstrap_insert_fault_is_final_witness :
  fst (App.bootstrap (with_engine dml_locked_run) empty_world) = Raise locked
  ∧ users_table (snd (App.bootstrap (with_engine dml_locked_run) empty_world))
    = Some (mkTable users_schema []).
Proof.
  destruct (bootstrap_insert_fault_is_final (with_engine dml_locked_run) empty_world locked
              dml_locked_create_law eq_refl eq_refl eq_refl) as (Hfault & Husers & _).
  split; [exact Hfault | exact Husers].
Defined.

(** X8 for the second user. *)
Lemma bootstrap_then_get_user_witness :
  fst (App.get_user Ref.platform (query_request [("id", "2")])
         (snd (App.bootstrap Ref.platform empty_world)))
  = Ok (mkResponse 200 (Json (JObj [("rows", JArr [JArr [JStr "2"; JStr "bob"]])]))).
Proof.
  exact (bootstrap_then_get_user Ref.platform (query_request [("id", "2")]) empty_world "2"
           ref_create_law ref_insert_law ref_select_law eq_refl eq_refl eq_refl eq_refl).
Defined.

(** X10 on an object with another key only. *)
Lemma run_defaults_to_echo_hello_witness :
  App.run Ref.platform (json_request (PDict [(PStr "command", PStr "exit 3")])) empty_world
  = App.run Ref.platform (json_request (PDict [(PStr "cmd", PStr "echo Hello")])) empty_world.
Proof.
  apply (run_defaults_to_echo_hello Ref.platform
           (json_request (PDict [(PStr "command", PStr "exit 3")])) empty_world
           [(PStr "command", PStr "exit 3")] eq_refl).
  repeat constructor. cbn. discriminate.
Defined.

(** X11 on [exit 3]. *)
Lemma run_answers_text_200_or_500_witness :
  (500 = 200 ∨ 500 = 500) ∧ ∃ s, Text EmptyString = Text s.
Proof.
  exact (run_answers_text_200_or_500 Ref.platform
           (json_request (PDict [(PStr "cmd", PStr "exit 3")])) empty_world
           (mkResponse 500 (Text EmptyString)) eq_refl).
Defined.

(** X12 on a file of two lines ended by line feeds. *)
Lemma read_file_serves_file_bytes_witness :
  ∃ s, App.read_file Ref.platform (query_request [("file", "plain.txt")]) notes_world
       = (Ok (mkResponse 200 (Text s)), notes_world)
       ∧ encode_utf8 s = [x61; x0a; x62; x0a].
Proof.
  exact (read_file_serves_file_bytes Ref.platform (query_request [("file", "plain.txt")])
           notes_world [x61; x0a; x62; x0a] eq_refl eq_refl eq_refl eq_refl eq_refl).
Defined.

(** X13 on a file whose first line ends in CR LF: the body has two line
    feeds and no carriage return. *)
Lemma read_file_body_has_no_carriage_return_witness :
  fst (App.read_file Ref.platform (query_request [("file", "notes.txt")]) notes_world)
  = Ok (mkResponse 200 (Text (String "a" (String LF (String "b" (String LF EmptyString))))))
  ∧ has_char CR (String "a" (String LF (String "b" (String LF EmptyString)))) = false.
Proof.
  split; [reflexivity|].
  exact (read_file_body_has_no_carriage_return Ref.platform
           (query_request [("file", "notes.txt")]) notes_world
           (mkResponse 200 (Text (String "a" (String LF (String "b" (String LF EmptyString))))))
           _ eq_refl eq_refl eq_refl).
Defined.

(** X14 on a request with another parameter only. *)
Lemma read_file_defaults_to_readme_witness :
  App.read_file Ref.platform (query_request [("id", "1")]) empty_world
  = App.read_file Ref.platform (query_request [("file", "README.md")]) empty_world.
Proof.
  apply (read_file_defaults_to_readme Ref.platform (query_request [("id", "1")]) empty_world).
  repeat constructor. cbn. discriminate.
Defined.

(** X15 on the document [[]]. *)
Lemma load_config_reflects_plain_data_witness :
  ∃ j, App.load_config Ref.platform (raw_request (list_byte_of_string "[]")) empty_world
       = (Ok (mkResponse 200 (Json j)), empty_world)
       ∧ to_json (PList []) = Some j.
Proof.
  exact (load_config_reflects_plain_data Ref.platform
           (raw_request (list_byte_of_string "[]")) empty_world empty_world "[]" (PList [])
           eq_refl eq_refl eq_refl).
Defined.
